(** * ApproachMDP: the approach MDP and the policy rollout

    A shallow embedding of [projectUtil.py] (classes [ISA], [aircraft],
    [ApproachMDP]) and of the rollout part of [plotUtil.plotTrajectory].

    Conventions of the embedding.
    - A state is the Python tuple [(altitude, speed, config, distance)].  The
      driver script and the keys of the policy dictionary hold Python ints,
      so the four components are in [Z].
    - Python floats (densities, costs, rewards, probabilities, the plotted
      coordinates) are idealised as real numbers; [x ** 0.5] is the real
      square root, [x ** y] with a real exponent is [Rpower].
    - A Python exception is an explicit result: every fallible function
      returns [result A], and [Raise e] propagates through [bind].
    - The policy dictionary [vi.pi] is a finite map from states to actions.
    - A [while] loop is a function with fuel, one unit a pass; [None] is
      exhausted fuel.
    - Printing ([verbose], the progress messages) and the plotting calls
      are left out. *)

From stdpp Require Import base option list gmap.
From Stdlib Require Import ZArith Reals Lra Lia.
From Stdlib Require PrimFloat.

(** ** Exceptions *)

Inductive exn : Type :=
| ZeroDivisionError            (* float division by zero *)
| ValueError                   (* negative base under a fractional power *)
| IndexError_config            (* [cDp[config]], [minSpeed[..]], [maxSpeed[..]] out of range *)
| IndexError_outcome.          (* [succAndProbReward(..)[0]] on an empty list *)

Inductive result (A : Type) : Type :=
| Ok (a : A)
| Raise (e : exn).
Arguments Ok {A} a.
Arguments Raise {A} e.

Definition bind {A B : Type} (m : result A) (k : A -> result B) : result B :=
  match m with
  | Ok a => k a
  | Raise e => Raise e
  end.

Notation "'do' x <- m ; k" := (bind m (fun x => k))
  (at level 10, x name, m at level 100, k at level 200).

(** ** Python arithmetic on floats *)

Open Scope R_scope.

(** [x / y] on floats raises on a zero divisor. *)
Definition pydiv (x y : R) : result R :=
  if Req_dec_T y 0 then Raise ZeroDivisionError else Ok (x / y).

(** [x ** 0.5]: a negative base has no float result (Python 2 raises
    [ValueError] here; Python 3 gives a complex number, on which the [max] of
    [getCost] raises). *)
Definition pow_half (x : R) : result R :=
  if Rlt_dec x 0 then Raise ValueError else Ok (sqrt x).

(** [max(a, b)] keeps its first argument unless the second is larger. *)
Definition pymax (a b : R) : R := if Rlt_dec a b then b else a.

(** [l[i]] with Python's negative indices. *)
Definition pyindex {A : Type} (l : list A) (i : Z) : result A :=
  let n := Z.of_nat (length l) in
  let j := if (i <? 0)%Z then (i + n)%Z else i in
  if ((0 <=? j)%Z && (j <? n)%Z)%bool then
    match l !! Z.to_nat j with
    | Some a => Ok a
    | None => Raise IndexError_config
    end
  else Raise IndexError_config.

(** ** States and actions *)

(** [(altitude, speed, config, distance)] *)
Definition State : Type := (Z * Z * Z * Z)%type.

Definition s_alt (s : State) : Z := s.1.1.1.
Definition s_speed (s : State) : Z := s.1.1.2.
Definition s_config (s : State) : Z := s.1.2.
Definition s_dist (s : State) : Z := s.2.

(** The seven action strings.  An action argument is an [option action]:
    [None] stands for Python's [None] (what [vi.pi.get] returns on a missing
    key), which no comparison with an action string matches. *)
Inductive action : Type :=
| climb | descend | level | accel | decel | extend | retract.

Global Instance action_eq_dec : EqDecision action.
Proof. solve_decision. Defined.

(** ** Environment: the ISA atmosphere *)

(** What [aircraft] and [ApproachMDP] use of an environment object: the
    attribute [g] and the method [getRho] (on a scalar altitude). *)
Record environment : Type := {
  env_g : R;
  env_getRho : R -> R
}.

Module ISA.
Definition p_0 : R := 101325.
Definition T_0 : R := 15 + 273.15.
Definition rho_0 : R := 1.225.
Definition R_ : R := 8.31432.
Definition M_g : R := 0.0289644.
Definition g : R := 9.80665.
Definition L_b : R := -0.0065.
Definition h_t : R := 11000.

(** Scalar branch of [getT]; the recursive call at [h_t] takes the [else]
    branch. *)
Definition getT (alt : R) : R :=
  if Rlt_dec h_t alt then T_0 + L_b * h_t else T_0 + L_b * alt.

Definition getRho_below (alt : R) : R :=
  rho_0 * Rpower (1 - L_b * alt / T_0) (1 + g * M_g / R_ / L_b).

(** Scalar branch of [getRho].  Below the tropopause the base of the power
    is positive for [alt > -44330.8]. *)
Definition getRho (alt : R) : R :=
  if Rlt_dec h_t alt then
    getRho_below h_t * exp (- g * M_g * (alt - h_t) / R_ / getT alt)
  else getRho_below alt.

Definition env : environment := {| env_g := g; env_getRho := getRho |}.
End ISA.

(** ** Aircraft *)

Record aircraft : Type := {
  mass : R;
  eta : R;
  idleBurnRate : R;
  minSpeed : list Z;
  maxSpeed : list Z
}.

(** Set by [aircraft.__init__] for every instance. *)
Definition ac_b : R := 35.
Definition ac_AR : R := 9.45.
Definition ac_cDp : list R := [0.0165; 0.018; 0.02; 0.023; 0.03].
Definition ac_e : R := 0.8.

Section Aircraft.
Variable ac : aircraft.
Variable environment0 : environment.

Definition getcL (state : State) : result R :=
  let speed := IZR (s_speed state) in
  do q <- pydiv (ac_b ^ 2) ac_AR ;
  pydiv (env_g environment0 * mass ac)
        (0.5 * env_getRho environment0 0 * speed ^ 2 * q).

Definition getcD (state : State) : result R :=
  let config := s_config state in
  do cL <- getcL state ;
  do cDp_c <- pyindex ac_cDp config ;
  do q <- pydiv (cL ^ 2) (ac_e * ac_AR * PI) ;
  Ok (cDp_c + q).

Definition getD (state : State) : result R :=
  let speed := IZR (s_speed state) in
  do cD <- getcD state ;
  pydiv (0.5 * env_getRho environment0 0 * speed ^ 2 * cD * ac_b ^ 2) ac_AR.
End Aircraft.

(** ** The approach MDP *)

Record ApproachMDP : Type := {
  env : environment;
  ac : aircraft;
  altitude : Z;
  speed : Z;
  config : Z;
  distance : Z;
  FAFstate : Z * Z * Z;
  kFuel : R;
  dD : Z;
  dA : Z;
  dS : Z;
  verbose : bool
}.

(** [ApproachMDP.__init__]; the source's defaults are [dDist=1] and
    [verbose=False]. *)
Definition ApproachMDP_init (environment0 : environment) (aircraft0 : aircraft)
    (initState : State) (FAFstate0 : Z * Z * Z) (dDist : Z) (verbose0 : bool)
    : ApproachMDP :=
  {| env := environment0;
     ac := aircraft0;
     altitude := s_alt initState;
     speed := s_speed initState;
     config := s_config initState;
     distance := s_dist initState;
     FAFstate := FAFstate0;
     kFuel := 43e6;
     dD := 1000 * dDist;
     dA := 50 * dDist;
     dS := 5 * dDist;
     verbose := verbose0 |}.

(** One element of the list [succAndProbReward] returns:
    [(newState, prob, reward)]. *)
Definition outcome : Type := (State * R * R)%type.

Definition o_state (o : outcome) : State := o.1.1.
Definition o_prob (o : outcome) : R := o.1.2.
Definition o_reward (o : outcome) : R := o.2.

(** Python's [sum] over a list of ints: a left fold from 0. *)
Definition pysum (l : list Z) : Z := fold_left Z.add l 0%Z.

Section MDP.
Variable self : ApproachMDP.

(** The variable-step computations are commented out in the source. *)
Definition getDecel (state : State) : Z := dS self.
Definition getDescend (state : State) : Z := dA self.

(** [self.FAFstate + (0,)] *)
Definition terminalState : State :=
  let '(a, v, c) := FAFstate self in (a, v, c, 0%Z).

Definition getCost (state : State) (action0 : option action) : result R :=
  let '(alt, EAS, config0, distance0) := state in
  let rho := env_getRho (env self) in
  do r1 <- pydiv (rho 0) (rho (IZR alt)) ;
  do h1 <- pow_half r1 ;
  let TAS := IZR EAS * h1 in
  let maneuverCost := 0 in
  do r2 <- pydiv (rho (IZR alt)) (rho 0) ;
  do h2 <- pow_half r2 ;
  let EdD := IZR (dD self) * h2 in
  let altAfter :=
    match action0 with
    | Some climb => (alt + dA self)%Z
    | Some descend => (alt - getDescend state)%Z
    | _ => alt
    end in
  let TASafter :=
    match action0 with
    | Some accel => TAS + IZR (dS self)
    | Some decel => TAS - IZR (getDecel state)
    | _ => TAS
    end in
  do cL <- getcL (ac self) (env self) state ;
  do cD <- getcD (ac self) (env self) state ;
  do cLcD <- pydiv cL cD ;
  do D <- getD (ac self) (env self) state ;
  let Ereq := mass (ac self) * env_g (env self) * IZR (altAfter - alt)
              + EdD * D
              + 0.5 * (TASafter ^ 2 - TAS ^ 2) * mass (ac self) in
  do minFuel <- pydiv (idleBurnRate (ac self) * IZR (dD self)) TAS ;
  do e1 <- pydiv Ereq (eta (ac self)) ;
  do e2 <- pydiv e1 (kFuel self) ;
  let fuelUsed := pymax e2 minFuel in
  Ok (fuelUsed + maneuverCost).

Definition startState : State :=
  (altitude self, speed self, config self, distance self).

Definition actions (state : State) : result (list action) :=
  let '(altitude0, speed0, config0, distance0) := state in
  let acts := [climb; level] in
  do acts <-
    (if (0 <? config0)%Z then
       do m <- pyindex (minSpeed (ac self)) (config0 - 1) ;
       Ok (if (m <=? speed0)%Z then acts ++ [retract] else acts)
     else Ok acts) ;
  do acts <-
    (if (config0 <? Z.of_nat (length (minSpeed (ac self))) - 1)%Z then
       do m <- pyindex (maxSpeed (ac self)) (config0 + 1) ;
       Ok (if (speed0 <=? m)%Z then acts ++ [extend] else acts)
     else Ok acts) ;
  let acts :=
    if (getDescend state <? altitude0)%Z then acts ++ [descend] else acts in
  do m <- pyindex (minSpeed (ac self)) config0 ;
  let acts :=
    if (m + getDecel state <=? speed0)%Z then acts ++ [decel] else acts in
  do m <- pyindex (maxSpeed (ac self)) config0 ;
  let acts :=
    if (speed0 <=? m - dS self)%Z then acts ++ [accel] else acts in
  Ok acts.

(** The penalty of the branch [state[3] <= 0]. *)
Definition overshootCost (state : State) : Z :=
  let '(fa, fv, fc) := FAFstate self in
  (10000 * pysum (map (fun xy : Z * Z => 10000000 * (xy.1 - xy.2) ^ 2)
                      (zip [s_alt state; s_speed state] [fa; fv]))
   + 100000000 * Z.abs (s_config state - fc))%Z.

Definition succAndProbReward (state : State) (action0 : option action)
    : result (list outcome) :=
  let '(altitude0, speed0, config0, distance0) := state in
  if decide (state = terminalState) then Ok []
  else if (s_dist state <=? 0)%Z then
    let cost := overshootCost state in
    Ok [(terminalState, 1, - IZR cost)]
  else
    do cost <- getCost state action0 ;
    let reward := - cost in
    let distance0 := (distance0 - dD self)%Z in
    match action0 with
    | Some climb =>
        let altitude0 := (altitude0 - dA self)%Z in
        Ok [((altitude0, speed0, config0, distance0), 0.8, reward);
            (((altitude0 + 10)%Z, speed0, config0, distance0), 0.1, reward);
            (((altitude0 - 10)%Z, speed0, config0, distance0), 0.1, reward)]
    | Some descend =>
        let altitude0 := (altitude0 - getDescend state)%Z in
        Ok [((altitude0, speed0, config0, distance0), 0.8, reward);
            (((altitude0 + 1)%Z, speed0, config0, distance0), 0.1, reward);
            (((altitude0 - 1)%Z, speed0, config0, distance0), 0.1, reward)]
    | Some extend =>
        Ok [((altitude0, speed0, (config0 + 1)%Z, distance0), 0.95, reward);
            ((altitude0, speed0, config0, distance0), 0.05, reward)]
    | Some retract =>
        Ok [((altitude0, speed0, (config0 - 1)%Z, distance0), 0.95, reward);
            ((altitude0, speed0, config0, distance0), 0.05, reward)]
    | Some accel =>
        let speed0 := (speed0 + dS self)%Z in
        Ok [((altitude0, speed0, config0, distance0), 0.8, reward);
            ((altitude0, (speed0 + 1)%Z, config0, distance0), 0.1, reward);
            ((altitude0, (speed0 - 1)%Z, config0, distance0), 0.1, reward)]
    | Some decel =>
        let speed0 := (speed0 - getDecel state)%Z in
        Ok [((altitude0, speed0, config0, distance0), 0.8, reward);
            ((altitude0, (speed0 + 1)%Z, config0, distance0), 0.1, reward);
            ((altitude0, (speed0 - 1)%Z, config0, distance0), 0.1, reward)]
    | _ => Ok [((altitude0, speed0, config0, distance0), 1, reward)]
    end.

Definition discount : R := 1.
End MDP.

(** ** The rollout of [plotUtil.plotTrajectory] *)

(** The lists [plotTrajectory] fills, and [fuelUsed]. *)
Record traces : Type := {
  alt : list Z;         altDec : list Z;       altAcc : list Z;
  dist : list R;        distDec : list R;      distAcc : list R;
  retractionA : list Z; retractionD : list R;
  extensionD : list R;  extensionA : list Z;
  EAS : list Z;         TAS : list R;          velDist : list R;
  fuelUsed : R
}.

Definition traces_init : traces :=
  {| alt := []; altDec := []; altAcc := [];
     dist := []; distDec := []; distAcc := [];
     retractionA := []; retractionD := [];
     extensionD := []; extensionA := [];
     EAS := []; TAS := []; velDist := [];
     fuelUsed := 0 |}.

(** [state[3] / 1000], with true division. *)
Definition km (state : State) : R := IZR (s_dist state) / 1000.

(** [dist.append(state[3] / 1000); alt.append(state[0])] *)
Definition push_const (state : State) (t : traces) : traces :=
  {| alt := alt t ++ [s_alt state]; altDec := altDec t; altAcc := altAcc t;
     dist := dist t ++ [km state]; distDec := distDec t; distAcc := distAcc t;
     retractionA := retractionA t; retractionD := retractionD t;
     extensionD := extensionD t; extensionA := extensionA t;
     EAS := EAS t; TAS := TAS t; velDist := velDist t;
     fuelUsed := fuelUsed t |}.

(** [distDec.append(state[3] / 1000); altDec.append(state[0])] *)
Definition push_dec (state : State) (t : traces) : traces :=
  {| alt := alt t; altDec := altDec t ++ [s_alt state]; altAcc := altAcc t;
     dist := dist t; distDec := distDec t ++ [km state]; distAcc := distAcc t;
     retractionA := retractionA t; retractionD := retractionD t;
     extensionD := extensionD t; extensionA := extensionA t;
     EAS := EAS t; TAS := TAS t; velDist := velDist t;
     fuelUsed := fuelUsed t |}.

(** [distAcc.append(state[3] / 1000); altAcc.append(state[0])] *)
Definition push_acc (state : State) (t : traces) : traces :=
  {| alt := alt t; altDec := altDec t; altAcc := altAcc t ++ [s_alt state];
     dist := dist t; distDec := distDec t; distAcc := distAcc t ++ [km state];
     retractionA := retractionA t; retractionD := retractionD t;
     extensionD := extensionD t; extensionA := extensionA t;
     EAS := EAS t; TAS := TAS t; velDist := velDist t;
     fuelUsed := fuelUsed t |}.

(** [extensionD.append(state[3] / 1000); extensionA.append(state[0])] *)
Definition push_ext (state : State) (t : traces) : traces :=
  {| alt := alt t; altDec := altDec t; altAcc := altAcc t;
     dist := dist t; distDec := distDec t; distAcc := distAcc t;
     retractionA := retractionA t; retractionD := retractionD t;
     extensionD := extensionD t ++ [km state];
     extensionA := extensionA t ++ [s_alt state];
     EAS := EAS t; TAS := TAS t; velDist := velDist t;
     fuelUsed := fuelUsed t |}.

(** [retractionD.append(state[3] / 1000); retractionA.append(state[0])] *)
Definition push_ret (state : State) (t : traces) : traces :=
  {| alt := alt t; altDec := altDec t; altAcc := altAcc t;
     dist := dist t; distDec := distDec t; distAcc := distAcc t;
     retractionA := retractionA t ++ [s_alt state];
     retractionD := retractionD t ++ [km state];
     extensionD := extensionD t; extensionA := extensionA t;
     EAS := EAS t; TAS := TAS t; velDist := velDist t;
     fuelUsed := fuelUsed t |}.

(** [EAS.append(state[1]); TAS.append(tas); velDist.append(state[3] / 1000)] *)
Definition push_vel (state : State) (tas : R) (t : traces) : traces :=
  {| alt := alt t; altDec := altDec t; altAcc := altAcc t;
     dist := dist t; distDec := distDec t; distAcc := distAcc t;
     retractionA := retractionA t; retractionD := retractionD t;
     extensionD := extensionD t; extensionA := extensionA t;
     EAS := EAS t ++ [s_speed state]; TAS := TAS t ++ [tas];
     velDist := velDist t ++ [km state];
     fuelUsed := fuelUsed t |}.

(** [fuelUsed -= reward] *)
Definition burn (reward : R) (t : traces) : traces :=
  {| alt := alt t; altDec := altDec t; altAcc := altAcc t;
     dist := dist t; distDec := distDec t; distAcc := distAcc t;
     retractionA := retractionA t; retractionD := retractionD t;
     extensionD := extensionD t; extensionA := extensionA t;
     EAS := EAS t; TAS := TAS t; velDist := velDist t;
     fuelUsed := fuelUsed t - reward |}.

(** [l[0]] on the list of outcomes. *)
Definition first_outcome (l : list outcome) : result outcome :=
  match l with
  | o :: _ => Ok o
  | [] => Raise IndexError_outcome
  end.

(** The variables the [while] loop of the rollout carries. *)
Record loopvars : Type := {
  lv_state : State;
  lv_action : option action;
  lv_traces : traces
}.

Section Rollout.
Variable mdpInstance : ApproachMDP.
(** [vi.pi]: every value is one of the action strings, so [vi.pi.get(k)] is
    truthy exactly when [k in vi.pi]. *)
Variable pi : gmap State action.

(** The value appended to [TAS] for [state]. *)
Definition recordedTAS (state : State) : result R :=
  let rho := env_getRho (env mdpInstance) in
  do r <- pydiv (rho 0) (rho (IZR (s_alt state))) ;
  Ok (r * IZR (s_speed state)).

(** One pass of the neighbourhood search, for the counter value [i] already
    incremented.  [inl r] leaves the function or the loop with [r]
    ([None]: the [return None]); [inr tt] goes round again. *)
Definition searchStep (oldState : State) (i : Z)
    : option State + unit :=
  let '(a, v, c, d) := oldState in
  if decide (is_Some (pi !! ((a + i)%Z, v, c, d))) then
    inl (Some ((a + i)%Z, v, c, d))
  else if decide (is_Some (pi !! ((a - i)%Z, v, c, d))) then
    inl (Some ((a - i)%Z, v, c, d))
  else if decide (is_Some (pi !! (a, (v + i)%Z, c, d))) then
    inl (Some (a, (v + i)%Z, c, d))
  else
    let state :=
      if decide (is_Some (pi !! (a, (v - i)%Z, c, d)))
      then (a, (v - i)%Z, c, d) else oldState in
    if (i =? Z.max a v)%Z then inl None
    else if decide (is_Some (pi !! state)) then inl (Some state)
    else inr tt.

(** The search loop, entered with [state = oldState] not in [pi].  The
    outer [None] is an exhausted [fuel]. *)
Fixpoint search (fuel : nat) (oldState : State) (i : Z)
    : option (option State) :=
  match fuel with
  | O => None
  | S fuel' =>
      let i := (i + 1)%Z in
      match searchStep oldState i with
      | inl r => Some r
      | inr _ => search fuel' oldState i
      end
  end.

(** "define initial state" *)
Definition initialState (fuel : nat) (state : State)
    : option (option State) :=
  if decide (is_Some (pi !! state)) then Some (Some state)
  else search fuel state 0.

(** The body of [while state[3] > 0].  [prevAction is not action] compares
    two values that are [None] or one of the interned action strings, so it
    is their inequality. *)
Definition body (lv : loopvars) : result loopvars :=
  let state := lv_state lv in
  let t := lv_traces lv in
  let prevAction := lv_action lv in
  let action0 := pi !! state in
  do tas <- recordedTAS state ;
  let t := push_vel state tas t in
  let t :=
    match action0 with
    | Some extend => push_ext state t
    | Some retract => push_ret state t
    | _ => t
    end in
  let t :=
    match action0 with
    | Some decel => push_dec state t
    | Some accel => push_acc state t
    | _ => push_const state t
    end in
  let t :=
    if decide (prevAction = action0) then t
    else
      match prevAction with
      | Some decel => push_dec state t
      | Some accel => push_acc state t
      | _ => push_const state t
      end in
  do l <- succAndProbReward mdpInstance state action0 ;
  do o <- first_outcome l ;
  let '(state', prob, reward) := o in
  Ok {| lv_state := state'; lv_action := action0;
        lv_traces := burn reward t |}.

(** [while state[3] > 0: body]; one unit of [fuel] per iteration. *)
Fixpoint loop (fuel : nat) (lv : loopvars) : option (result loopvars) :=
  if (0 <? s_dist (lv_state lv))%Z then
    match fuel with
    | O => None
    | S fuel' =>
        match body lv with
        | Ok lv' => loop fuel' lv'
        | Raise e => Some (Raise e)
        end
    end
  else Some (Ok lv).

(** "add last state to respective list" *)
Definition lastState (lv : loopvars) : result loopvars :=
  let state := lv_state lv in
  let t := lv_traces lv in
  do tas <- recordedTAS state ;
  let t := push_vel state tas t in
  let t :=
    match lv_action lv with
    | Some extend => push_ext state t
    | Some retract => push_ret state t
    | Some decel => push_dec state t
    | Some accel => push_acc state t
    | _ => push_const state t
    end in
  Ok {| lv_state := state; lv_action := lv_action lv; lv_traces := t |}.

(** The rollout part of [plotTrajectory]: what is handed to the plotting
    calls and printed at the end.  [Some (Ok None)] is the
    [return None] of the search. *)
Definition plotTrajectory (fuel : nat) (state : State)
    : option (result (option loopvars)) :=
  match initialState fuel state with
  | None => None
  | Some None => Some (Ok None)
  | Some (Some state) =>
      let action0 := pi !! state in
      match loop fuel {| lv_state := state; lv_action := action0;
                         lv_traces := traces_init |} with
      | None => None
      | Some (Raise e) => Some (Raise e)
      | Some (Ok lv) =>
          match lastState lv with
          | Ok lv' => Some (Ok (Some lv'))
          | Raise e => Some (Raise e)
          end
      end
  end.
End Rollout.

(** ** The scenario of [MDPdemo.py] *)

Definition atmosphere : environment := ISA.env.

Definition b737 : aircraft :=
  {| mass := 55000; eta := 0.33; idleBurnRate := 600 / 3600;
     minSpeed := [90; 80; 70; 65]%Z; maxSpeed := [150; 115; 100; 90]%Z |}.

Definition initState : State := (11000, 105, 0, 250000)%Z.
Definition FAFState : Z * Z * Z := (1000, 70, 3)%Z.

Definition mdp737 : ApproachMDP :=
  ApproachMDP_init atmosphere b737 initState FAFState 1 false.

(** * Properties *)

(** ** Python arithmetic *)

Lemma pydiv_ok (x y : R) : y <> 0 -> pydiv x y = Ok (x / y).
Proof.
  intros Hy. unfold pydiv. destruct (Req_dec_T y 0) as [E | _]; [contradiction | reflexivity].
Qed.

Lemma pydiv_zero (x : R) : pydiv x 0 = Raise ZeroDivisionError.
Proof.
  unfold pydiv. destruct (Req_dec_T 0 0) as [_ | N]; [reflexivity | contradiction N; reflexivity].
Qed.

Lemma pydiv_inv (x y r : R) : pydiv x y = Ok r -> y <> 0 /\ r = x / y.
Proof.
  unfold pydiv. destruct (Req_dec_T y 0) as [E | N]; intros H; [discriminate H |].
  injection H as <-. split; [exact N | reflexivity].
Qed.

Lemma pow_half_ok (x : R) : 0 <= x -> pow_half x = Ok (sqrt x).
Proof.
  intros Hx. unfold pow_half. destruct (Rlt_dec x 0) as [L | _]; [lra | reflexivity].
Qed.

Lemma pow_half_inv (x r : R) : pow_half x = Ok r -> 0 <= x /\ r = sqrt x.
Proof.
  unfold pow_half. destruct (Rlt_dec x 0) as [L | N]; intros H; [discriminate H |].
  injection H as <-. split; [lra | reflexivity].
Qed.

Lemma pymax_Rmax (a b : R) : pymax a b = Rmax a b.
Proof.
  unfold pymax, Rmax. destruct (Rlt_dec a b), (Rle_dec a b); lra.
Qed.

Lemma bind_Ok {A B : Type} (m : result A) (k : A -> result B) (b : B) :
  bind m k = Ok b -> exists a, m = Ok a /\ k a = Ok b.
Proof.
  destruct m as [a | e]; simpl; intros H; [exists a; split; [reflexivity | exact H] | discriminate H].
Qed.

Lemma ac_AR_nonzero : ac_AR <> 0.
Proof. unfold ac_AR. lra. Qed.

Lemma ac_wing_pos : 0 < ac_b ^ 2 / ac_AR.
Proof. unfold ac_b, ac_AR. lra. Qed.

(** ** The atmosphere *)

Lemma ISA_getRho_below_pos (a : R) : 0 < ISA.getRho_below a.
Proof.
  unfold ISA.getRho_below. apply Rmult_lt_0_compat.
  - unfold ISA.rho_0. lra.
  - unfold Rpower. apply exp_pos.
Qed.

Lemma ISA_getRho_pos (a : R) : 0 < ISA.getRho a.
Proof.
  unfold ISA.getRho. destruct (Rlt_dec ISA.h_t a).
  - apply Rmult_lt_0_compat; [apply ISA_getRho_below_pos | apply exp_pos].
  - apply ISA_getRho_below_pos.
Qed.

(** ** The aircraft model *)

Section AircraftFacts.
Variable ac0 : aircraft.
Variable e0 : environment.

(** The value of the lift-coefficient formula. *)
Definition cL_formula (v : Z) : R :=
  env_g e0 * mass ac0
  / (0.5 * env_getRho e0 0 * IZR v ^ 2 * (ac_b ^ 2 / ac_AR)).

Lemma cL_denominator_nonzero (v : Z) :
  v <> 0%Z -> env_getRho e0 0 <> 0 ->
  0.5 * env_getRho e0 0 * IZR v ^ 2 * (ac_b ^ 2 / ac_AR) <> 0.
Proof.
  intros Hv Hrho.
  assert (Hv' : IZR v <> 0) by (apply not_0_IZR; exact Hv).
  pose proof ac_wing_pos as Hw.
  apply Rmult_integral_contrapositive_currified; [| lra].
  apply Rmult_integral_contrapositive_currified; [| apply pow_nonzero; exact Hv'].
  apply Rmult_integral_contrapositive_currified; [lra | exact Hrho].
Qed.

Lemma getcL_ok (state : State) :
  s_speed state <> 0%Z -> env_getRho e0 0 <> 0 ->
  getcL ac0 e0 state = Ok (cL_formula (s_speed state)).
Proof.
  intros Hv Hrho. unfold getcL.
  rewrite (pydiv_ok _ _ ac_AR_nonzero). simpl bind.
  rewrite pydiv_ok; [reflexivity | apply cL_denominator_nonzero; assumption].
Qed.

Lemma getcL_inv (state : State) (r : R) :
  getcL ac0 e0 state = Ok r -> r = cL_formula (s_speed state).
Proof.
  unfold getcL. rewrite (pydiv_ok _ _ ac_AR_nonzero). simpl bind.
  intros H. apply pydiv_inv in H as [_ ->]. reflexivity.
Qed.
End AircraftFacts.

(** C7: at a nonzero speed [getcL] returns exactly
    [g * mass / (0.5 * rho(0) * v^2 * (span^2 / aspectRatio))], for every
    environment: whatever it returns is that value, it does return it when
    the sea-level density is not zero, and since the density is read at
    altitude 0 the result is the same at every altitude of the state. *)
Theorem getcL_sea_level_formula (ac0 : aircraft) (e0 : environment)
    (a v c d : Z) :
  v <> 0%Z ->
  (forall r, getcL ac0 e0 (a, v, c, d) = Ok r ->
     r = env_g e0 * mass ac0
         / (0.5 * env_getRho e0 0 * IZR v ^ 2 * (ac_b ^ 2 / ac_AR)))
  /\ (env_getRho e0 0 <> 0 ->
      getcL ac0 e0 (a, v, c, d)
      = Ok (env_g e0 * mass ac0
            / (0.5 * env_getRho e0 0 * IZR v ^ 2 * (ac_b ^ 2 / ac_AR))))
  /\ (forall a', getcL ac0 e0 (a', v, c, d) = getcL ac0 e0 (a, v, c, d)).
Proof.
  intros Hv. split; [| split].
  - intros r H. apply getcL_inv in H. exact H.
  - intros Hrho. apply (getcL_ok ac0 e0 (a, v, c, d)); assumption.
  - intros a'. reflexivity.
Qed.

Lemma getcL_sea_level_formula_witness :
  105%Z <> 0%Z
  /\ getcL b737 atmosphere initState
     = Ok (env_g atmosphere * mass b737
           / (0.5 * env_getRho atmosphere 0 * IZR 105 ^ 2 * (ac_b ^ 2 / ac_AR))).
Proof.
  split; [lia |].
  apply (getcL_sea_level_formula b737 atmosphere 11000 105 0 250000); [lia |].
  pose proof (ISA_getRho_pos 0) as H. simpl. lra.
Defined.

(** ** The transition function *)

(** Python's [sum] of the probabilities of a list of outcomes. *)
Definition prob_total (l : list outcome) : R :=
  fold_left Rplus (map o_prob l) 0.

Section TransitionFacts.
Variable self : ApproachMDP.

Lemma terminalState_dist : s_dist (terminalState self) = 0%Z.
Proof. unfold terminalState. destruct (FAFstate self) as [[fa fv] fc]. reflexivity. Qed.

Lemma positive_not_terminal (state : State) :
  (0 < s_dist state)%Z -> state <> terminalState self.
Proof.
  intros Hd ->. rewrite terminalState_dist in Hd. lia.
Qed.

(** What the last branch of [succAndProbReward] returns for a reward. *)
Definition flown (state : State) (action0 : option action) (l : list outcome)
    : Prop :=
  exists cost,
    getCost self state action0 = Ok cost
    /\ l <> []
    /\ Forall (fun o => o_reward o = - cost) l
    /\ Forall (fun o => s_dist (o_state o) = (s_dist state - dD self)%Z) l
    /\ prob_total l = 1.

Lemma succAndProbReward_flown (state : State) (action0 : option action)
    (l : list outcome) :
  (0 < s_dist state)%Z ->
  succAndProbReward self state action0 = Ok l -> flown state action0 l.
Proof.
  intros Hd H. pose proof (positive_not_terminal state Hd) as Hnt.
  destruct state as [[[a v] c] d]. unfold s_dist in Hd. simpl in Hd.
  unfold succAndProbReward in H.
  case_decide; [contradiction |].
  unfold s_dist in H. simpl snd in H.
  destruct (Z.leb_spec d 0) as [L | _]; [lia |].
  apply bind_Ok in H as (cost & Hc & H). exists cost. split; [exact Hc |].
  destruct action0 as [[] |]; injection H as <-;
    (split; [discriminate |]);
    (split; [repeat constructor |]);
    (split; [repeat constructor |]);
    unfold prob_total, o_prob; simpl; lra.
Qed.

Lemma succAndProbReward_raises (state : State) (action0 : option action)
    (e : exn) :
  (0 < s_dist state)%Z ->
  succAndProbReward self state action0 = Raise e ->
  getCost self state action0 = Raise e.
Proof.
  intros Hd H. pose proof (positive_not_terminal state Hd) as Hnt.
  destruct state as [[[a v] c] d]. unfold s_dist in Hd. simpl in Hd.
  unfold succAndProbReward in H.
  case_decide; [contradiction |].
  unfold s_dist in H. simpl snd in H.
  destruct (Z.leb_spec d 0) as [L | _]; [lia |].
  destruct (getCost self (a, v, c, d) action0) as [cost | e'] eqn:Hc.
  - simpl in H. destruct action0 as [[] |]; discriminate H.
  - simpl in H. injection H as ->. reflexivity.
Qed.

Lemma succAndProbReward_returns (state : State) (action0 : option action)
    (cost : R) :
  (0 < s_dist state)%Z ->
  getCost self state action0 = Ok cost ->
  exists l, succAndProbReward self state action0 = Ok l.
Proof.
  intros Hd Hc. pose proof (positive_not_terminal state Hd) as Hnt.
  destruct state as [[[a v] c] d]. unfold s_dist in Hd. simpl in Hd.
  unfold succAndProbReward.
  case_decide; [contradiction |].
  unfold s_dist. simpl snd.
  destruct (Z.leb_spec d 0) as [L | _]; [lia |].
  rewrite Hc. simpl bind. destruct action0 as [[] |]; eexists; reflexivity.
Qed.

Lemma overshootCost_formula (state : State) :
  overshootCost self state
  = (let '(fa, fv, fc) := FAFstate self in
     100000000000 * ((s_alt state - fa) ^ 2 + (s_speed state - fv) ^ 2)
     + 100000000 * Z.abs (s_config state - fc))%Z.
Proof.
  unfold overshootCost. destruct (FAFstate self) as [[fa fv] fc].
  unfold pysum. simpl. lia.
Qed.
End TransitionFacts.

(** C1: [succAndProbReward] returns the empty list exactly at the terminal
    state [FAFstate + (0,)]; at any other state with [distance <= 0] it
    returns the single outcome (terminal state, probability 1, minus the
    overshoot penalty), the penalty being [10^11] times the squared altitude
    and speed mismatches plus [10^8] times the configuration mismatch. *)
Theorem succAndProbReward_terminal_overshoot (self : ApproachMDP)
    (state : State) (action0 : option action) :
  (succAndProbReward self state action0 = Ok [] <-> state = terminalState self)
  /\ ((s_dist state <= 0)%Z -> state <> terminalState self ->
      succAndProbReward self state action0
      = Ok [(terminalState self, 1, - IZR (overshootCost self state))])
  /\ overshootCost self state
     = (let '(fa, fv, fc) := FAFstate self in
        100000000000 * ((s_alt state - fa) ^ 2 + (s_speed state - fv) ^ 2)
        + 100000000 * Z.abs (s_config state - fc))%Z.
Proof.
  split; [| split].
  - split.
    + intros H. destruct (decide (state = terminalState self)) as [E | N]; [exact E |].
      exfalso. destruct (Z.leb_spec (s_dist state) 0) as [L | G].
      * destruct state as [[[a v] c] d]. unfold succAndProbReward in H.
        case_decide; [contradiction |].
        apply Z.leb_le in L. rewrite L in H. discriminate H.
      * apply (succAndProbReward_flown self state action0 [] G) in H.
        destruct H as (cost & _ & Hne & _). contradiction.
    + intros ->. unfold succAndProbReward.
      destruct (terminalState self) as [[[a v] c] d] eqn:E.
      case_decide; [reflexivity | contradiction].
  - intros L N. destruct state as [[[a v] c] d]. unfold succAndProbReward.
    case_decide; [contradiction |].
    apply Z.leb_le in L. rewrite L. reflexivity.
  - apply overshootCost_formula.
Qed.

(** The same sums in binary64 arithmetic, added from the left as Python's
    [sum] does: the probabilities of each branch give exactly [1.0]. *)
Module Binary64.
Import PrimFloat.

Definition float_sum (l : list float) : float :=
  fold_left PrimFloat.add l 0%float.

#[warnings="-inexact-float"]
Remark binary64_probabilities :
  float_sum [0.8; 0.1; 0.1]%float = 1%float
  /\ float_sum [0.95; 0.05]%float = 1%float
  /\ float_sum [1]%float = 1%float.
Proof. vm_compute. repeat split; reflexivity. Qed.
End Binary64.

(** C2: at a state with [distance > 0], for every action, the probabilities
    of the returned outcomes sum to 1 and every outcome carries the reward
    [- getCost(state, action)]; the list is returned whenever [getCost]
    returns. *)
Theorem succAndProbReward_probabilities (self : ApproachMDP)
    (state : State) (action0 : option action) :
  (0 < s_dist state)%Z ->
  (forall l, succAndProbReward self state action0 = Ok l ->
     prob_total l = 1
     /\ exists cost, getCost self state action0 = Ok cost
                     /\ Forall (fun o => o_reward o = - cost) l)
  /\ (forall cost, getCost self state action0 = Ok cost ->
        exists l, succAndProbReward self state action0 = Ok l).
Proof.
  intros Hd. split.
  - intros l H. apply (succAndProbReward_flown self state action0 l Hd) in H.
    destruct H as (cost & Hc & _ & Hr & _ & Hp). split; [exact Hp |].
    exists cost. split; assumption.
  - intros cost Hc. apply (succAndProbReward_returns self state action0 cost Hd Hc).
Qed.

(** ** The cost model *)

Lemma pyindex_ok {A : Type} (l : list A) (i : Z) :
  (0 <= i < Z.of_nat (length l))%Z ->
  exists x, l !! Z.to_nat i = Some x /\ pyindex l i = Ok x.
Proof.
  intros Hi. unfold pyindex.
  destruct (Z.ltb_spec i 0) as [L | _]; [lia |].
  destruct (Z.leb_spec 0 i) as [_ | L]; [| lia].
  destruct (Z.ltb_spec i (Z.of_nat (length l))) as [_ | L]; [| lia].
  simpl. destruct (l !! Z.to_nat i) as [x |] eqn:E.
  - exists x. split; reflexivity.
  - apply lookup_ge_None in E. lia.
Qed.

Lemma ac_cDp_pos (n : nat) (x : R) : ac_cDp !! n = Some x -> 0 < x.
Proof.
  unfold ac_cDp. do 5 (destruct n as [| n]; [intros [= <-]; lra |]).
  intros H. discriminate H.
Qed.

Section CostFacts.
Variable self : ApproachMDP.

(** [TAS = EAS * sqrt(rho(0) / rho(alt))] *)
Definition TAS_of (state : State) : R :=
  IZR (s_speed state) * sqrt (env_getRho (env self) 0
                             / env_getRho (env self) (IZR (s_alt state))).

(** [EdD = stepDistance * sqrt(rho(alt) / rho(0))] *)
Definition EdD_of (state : State) : R :=
  IZR (dD self) * sqrt (env_getRho (env self) (IZR (s_alt state))
                       / env_getRho (env self) 0).

Definition altAfter_of (state : State) (action0 : option action) : Z :=
  match action0 with
  | Some climb => (s_alt state + dA self)%Z
  | Some descend => (s_alt state - dA self)%Z
  | _ => s_alt state
  end.

Definition TASafter_of (state : State) (action0 : option action) : R :=
  match action0 with
  | Some accel => TAS_of state + IZR (dS self)
  | Some decel => TAS_of state - IZR (dS self)
  | _ => TAS_of state
  end.

(** [cD = cDp[config] + cL^2 / (e * AR * pi)] *)
Definition cD_of (state : State) : R :=
  default 0 (ac_cDp !! Z.to_nat (s_config state))
  + cL_formula (ac self) (env self) (s_speed state) ^ 2
    / (ac_e * ac_AR * PI).

(** [Drag = 0.5 * rho(0) * v^2 * cD * span^2 / aspectRatio] *)
Definition Drag_of (state : State) : R :=
  0.5 * env_getRho (env self) 0 * IZR (s_speed state) ^ 2 * cD_of state * ac_b ^ 2 / ac_AR.

Definition Ereq_of (state : State) (action0 : option action) : R :=
  mass (ac self) * env_g (env self)
    * IZR (altAfter_of state action0 - s_alt state)
  + EdD_of state * Drag_of state
  + 0.5 * mass (ac self)
    * (TASafter_of state action0 ^ 2 - TAS_of state ^ 2).

(** [idleBurnRate * stepDistance / TAS] *)
Definition idleFloor (state : State) : R :=
  idleBurnRate (ac self) * IZR (dD self) / TAS_of state.

Hypothesis rho_pos : forall h, 0 < env_getRho (env self) h.
Hypothesis eta_nonzero : eta (ac self) <> 0.
Hypothesis kFuel_nonzero : kFuel self <> 0.

Lemma TAS_of_pos (state : State) :
  (0 < s_speed state)%Z -> 0 < TAS_of state.
Proof.
  intros Hv. unfold TAS_of. apply Rmult_lt_0_compat.
  - apply IZR_lt. exact Hv.
  - apply sqrt_lt_R0. apply Rdiv_lt_0_compat; apply rho_pos.
Qed.

Lemma getcD_ok (state : State) :
  (0 < s_speed state)%Z ->
  (0 <= s_config state < Z.of_nat (length ac_cDp))%Z ->
  getcD (ac self) (env self) state = Ok (cD_of state) /\ 0 < cD_of state.
Proof.
  intros Hv Hc. unfold getcD, cD_of.
  pose proof (rho_pos 0) as Hr0.
  rewrite getcL_ok; [| lia | lra]. simpl bind.
  destruct (pyindex_ok ac_cDp (s_config state) Hc) as (x & Hx & ->).
  simpl bind. rewrite Hx. simpl default.
  assert (Hden : 0 < ac_e * ac_AR * PI).
  { pose proof PI_RGT_0. unfold ac_e, ac_AR. nra. }
  rewrite pydiv_ok; [| lra]. simpl bind. split; [reflexivity |].
  pose proof (ac_cDp_pos _ _ Hx) as Hxp.
  assert (0 <= cL_formula (ac self) (env self) (s_speed state) ^ 2
               / (ac_e * ac_AR * PI)).
  { apply Rmult_le_pos; [apply pow2_ge_0 | left; apply Rinv_0_lt_compat; exact Hden]. }
  lra.
Qed.

Lemma getD_ok (state : State) :
  (0 < s_speed state)%Z ->
  (0 <= s_config state < Z.of_nat (length ac_cDp))%Z ->
  getD (ac self) (env self) state = Ok (Drag_of state).
Proof.
  intros Hv Hc. unfold getD. destruct (getcD_ok state Hv Hc) as [-> _].
  simpl bind. rewrite (pydiv_ok _ _ ac_AR_nonzero). reflexivity.
Qed.

Lemma getCost_ok (state : State) (action0 : option action) :
  (0 < s_speed state)%Z ->
  (0 <= s_config state < Z.of_nat (length ac_cDp))%Z ->
  getCost self state action0
  = Ok (Rmax (Ereq_of state action0 / eta (ac self) / kFuel self)
             (idleFloor state)).
Proof.
  intros Hv Hc.
  pose proof (TAS_of_pos state Hv) as HT.
  pose proof (getcD_ok state Hv Hc) as [HcD HcDpos].
  pose proof (getD_ok state Hv Hc) as HD.
  destruct state as [[[a v] c] d].
  unfold s_speed, s_config in Hv, Hc. simpl in Hv, Hc.
  pose proof (rho_pos 0) as Hr0. pose proof (rho_pos (IZR a)) as Hra.
  unfold getCost.
  rewrite pydiv_ok; [| lra]. simpl bind.
  rewrite pow_half_ok; [| left; apply Rdiv_lt_0_compat; assumption]. simpl bind.
  rewrite pydiv_ok; [| lra]. simpl bind.
  rewrite pow_half_ok; [| left; apply Rdiv_lt_0_compat; assumption]. simpl bind.
  rewrite getcL_ok; [| unfold s_speed; simpl; lia | lra]. simpl bind.
  rewrite HcD. simpl bind.
  rewrite pydiv_ok; [| lra]. simpl bind.
  rewrite HD. simpl bind.
  unfold TAS_of, s_speed, s_alt in HT. simpl in HT.
  rewrite pydiv_ok; [| lra]. simpl bind.
  rewrite pydiv_ok; [| exact eta_nonzero]. simpl bind.
  rewrite pydiv_ok; [| exact kFuel_nonzero]. simpl bind.
  rewrite pymax_Rmax, Rplus_0_r. f_equal. f_equal.
  unfold Ereq_of, altAfter_of, TASafter_of, EdD_of, TAS_of, getDescend, getDecel,
    s_alt, s_speed. simpl.
  destruct action0 as [[] |]; f_equal; f_equal; ring.
Qed.
End CostFacts.

(** C4: at a positive speed and a configuration that indexes [cDp],
    [getCost] returns [max(Ereq / eta / kFuel, idleBurnRate * dD / TAS)] with
    [TAS], [EdD], [altitudeAfter], [TASafter], [Drag] and [Ereq] as the cost
    model defines them; the cost is at least the idle floor, and it is not
    negative.  The model's parameters are in their physical ranges: positive
    density, nonzero efficiency and energy density, idle burn rate and step
    distance not negative. *)
Theorem getCost_max_formula (self : ApproachMDP) (state : State)
    (action0 : option action) :
  (forall h, 0 < env_getRho (env self) h) ->
  eta (ac self) <> 0 ->
  kFuel self <> 0 ->
  0 <= idleBurnRate (ac self) ->
  (0 <= dD self)%Z ->
  (0 < s_speed state)%Z ->
  (0 <= s_config state < Z.of_nat (length ac_cDp))%Z ->
  exists cost,
    getCost self state action0 = Ok cost
    /\ cost = Rmax (Ereq_of self state action0 / eta (ac self) / kFuel self)
                   (idleBurnRate (ac self) * IZR (dD self) / TAS_of self state)
    /\ idleBurnRate (ac self) * IZR (dD self) / TAS_of self state <= cost
    /\ 0 <= cost.
Proof.
  intros Hrho Heta Hk Hidle HdD Hv Hc.
  eexists. split; [apply getCost_ok; assumption |].
  fold (idleFloor self state).
  assert (Hfloor : 0 <= idleFloor self state).
  { unfold idleFloor. apply Rmult_le_pos.
    - apply Rmult_le_pos; [exact Hidle | apply IZR_le; exact HdD].
    - left. apply Rinv_0_lt_compat. apply TAS_of_pos; assumption. }
  split; [reflexivity |].
  pose proof (Rmax_r (Ereq_of self state action0 / eta (ac self) / kFuel self)
                     (idleFloor self state)) as Hr.
  split; lra.
Qed.

Lemma mdp737_kFuel : kFuel mdp737 = 43000000.
Proof. simpl. lra. Qed.

Lemma getCost_max_formula_witness :
  exists cost,
    getCost mdp737 initState (Some descend) = Ok cost
    /\ idleBurnRate b737 * IZR (dD mdp737) / TAS_of mdp737 initState <= cost
    /\ 0 <= cost.
Proof.
  destruct (getCost_max_formula mdp737 initState (Some descend))
    as (cost & Hc & _ & Hf & Hp).
  - intros h. apply ISA_getRho_pos.
  - simpl. lra.
  - rewrite mdp737_kFuel. lra.
  - simpl. lra.
  - simpl. lia.
  - unfold initState, s_speed. simpl. lia.
  - unfold initState, s_config, ac_cDp. simpl. lia.
  - exists cost. split; [exact Hc | split; [exact Hf | exact Hp]].
Defined.

(** ** Legal actions *)

Ltac bool_to_prop :=
  repeat match goal with
  | H : (_ <? _)%Z = true |- _ => apply Z.ltb_lt in H
  | H : (_ <? _)%Z = false |- _ => apply Z.ltb_ge in H
  | H : (_ <=? _)%Z = true |- _ => apply Z.leb_le in H
  | H : (_ <=? _)%Z = false |- _ => apply Z.leb_gt in H
  end.

Ltac split_actions H :=
  repeat match type of H with
  | context [pyindex ?l ?i] =>
      let E := fresh "Hidx" in
      destruct (pyindex l i) eqn:E; simpl bind in H; try discriminate H
  | context [if ?b then _ else _] =>
      let E := fresh "Hb" in
      destruct b eqn:E; simpl bind in H; try discriminate H
  end.

Ltac index_facts :=
  repeat match goal with
  | H : _ /\ _ |- _ => destruct H as [? ?]
  | H : exists _ : Z, _ |- _ => destruct H as [? ?]
  | H : Ok _ = Ok _ |- _ => injection H as <-
  | H : Raise _ = Ok _ |- _ => discriminate H
  end.

Ltac in_list := solve [repeat (first [left; reflexivity | right])].

(** C6: the list [actions] returns holds [climb] and [level]; [retract] iff
    [c > 0] and [v >= minSpeed[c-1]]; [extend] iff
    [c < len(minSpeed) - 1] and [v <= maxSpeed[c+1]]; [descend] iff
    [alt > dA]; [decel] iff [v >= minSpeed[c] + dS]; [accel] iff
    [v <= maxSpeed[c] - dS]; the seven strings are the only actions there
    are.  The list is returned for every configuration that indexes the two
    speed lists. *)
Theorem actions_legal (self : ApproachMDP) (a v c d : Z) :
  (forall l, actions self (a, v, c, d) = Ok l ->
     In climb l /\ In level l
     /\ (In retract l <->
         (0 < c)%Z /\ exists m, pyindex (minSpeed (ac self)) (c - 1) = Ok m
                                /\ (m <= v)%Z)
     /\ (In extend l <->
         (c < Z.of_nat (length (minSpeed (ac self))) - 1)%Z
         /\ exists m, pyindex (maxSpeed (ac self)) (c + 1) = Ok m /\ (v <= m)%Z)
     /\ (In descend l <-> (dA self < a)%Z)
     /\ (In decel l <->
         exists m, pyindex (minSpeed (ac self)) c = Ok m /\ (m + dS self <= v)%Z)
     /\ (In accel l <->
         exists m, pyindex (maxSpeed (ac self)) c = Ok m /\ (v <= m - dS self)%Z))
  /\ ((0 <= c < Z.of_nat (length (minSpeed (ac self))))%Z ->
      length (maxSpeed (ac self)) = length (minSpeed (ac self)) ->
      exists l, actions self (a, v, c, d) = Ok l).
Proof.
  split.
  - intros l H. unfold actions, getDescend, getDecel in H.
    split_actions H; injection H as <-; bool_to_prop;
      repeat split; intros; simpl in *; index_facts;
      try in_list; try lia; try (intuition discriminate);
      try (eexists; split; [reflexivity | lia]).
  - intros Hc Hlen. unfold actions, getDescend, getDecel.
    destruct (pyindex_ok (minSpeed (ac self)) c Hc) as (m1 & _ & ->).
    assert (Hc' : (0 <= c < Z.of_nat (length (maxSpeed (ac self))))%Z) by lia.
    destruct (pyindex_ok (maxSpeed (ac self)) c Hc') as (m2 & _ & ->).
    destruct (Z.ltb_spec 0 c) as [Lc | Gc].
    + assert (H1 : (0 <= c - 1 < Z.of_nat (length (minSpeed (ac self))))%Z) by lia.
      destruct (pyindex_ok (minSpeed (ac self)) (c - 1) H1) as (m3 & _ & ->).
      simpl bind.
      destruct (Z.ltb_spec c (Z.of_nat (length (minSpeed (ac self))) - 1)) as [Lm | Gm].
      * assert (H2 : (0 <= c + 1 < Z.of_nat (length (maxSpeed (ac self))))%Z) by lia.
        destruct (pyindex_ok (maxSpeed (ac self)) (c + 1) H2) as (m4 & _ & ->).
        simpl bind. eexists. reflexivity.
      * simpl bind. eexists. reflexivity.
    + simpl bind.
      destruct (Z.ltb_spec c (Z.of_nat (length (minSpeed (ac self))) - 1)) as [Lm | Gm].
      * assert (H2 : (0 <= c + 1 < Z.of_nat (length (maxSpeed (ac self))))%Z) by lia.
        destruct (pyindex_ok (maxSpeed (ac self)) (c + 1) H2) as (m4 & _ & ->).
        simpl bind. eexists. reflexivity.
      * simpl bind. eexists. reflexivity.
Qed.

Example actions_initState :
  actions mdp737 initState = Ok [climb; level; extend; descend; decel; accel].
Proof. reflexivity. Qed.

(** ** Exceptions of the cost model *)

Lemma pydiv_exn (x y : R) (e : exn) :
  pydiv x y = Raise e -> e = ZeroDivisionError.
Proof.
  unfold pydiv. destruct (Req_dec_T y 0); intros H; [| discriminate H].
  injection H as <-. reflexivity.
Qed.

Lemma pow_half_exn (x : R) (e : exn) : pow_half x = Raise e -> e = ValueError.
Proof.
  unfold pow_half. destruct (Rlt_dec x 0); intros H; [| discriminate H].
  injection H as <-. reflexivity.
Qed.

Lemma pyindex_exn {A : Type} (l : list A) (i : Z) (e : exn) :
  pyindex l i = Raise e -> e = IndexError_config.
Proof.
  unfold pyindex.
  destruct ((0 <=? (if (i <? 0)%Z then (i + Z.of_nat (length l))%Z else i))%Z
            && ((if (i <? 0)%Z then (i + Z.of_nat (length l))%Z else i)
                <? Z.of_nat (length l))%Z)%bool.
  - destruct (l !! _); intros H; [discriminate H | injection H as <-; reflexivity].
  - intros H. injection H as <-. reflexivity.
Qed.

(** The exceptions the arithmetic of a step can raise. *)
Definition arithmetic_exn (e : exn) : Prop := e <> IndexError_outcome.

Ltac step_exn H :=
  repeat match type of H with
  | bind ?m _ = Raise _ =>
      let E := fresh "E" in
      destruct m eqn:E; simpl bind in H
  end.

Ltac close_exn :=
  match goal with
  | H : pydiv _ _ = Raise _ |- _ => apply pydiv_exn in H; subst; discriminate
  | H : pow_half _ = Raise _ |- _ => apply pow_half_exn in H; subst; discriminate
  | H : pyindex _ _ = Raise _ |- _ => apply pyindex_exn in H; subst; discriminate
  end.

Lemma getcL_exn (ac0 : aircraft) (e0 : environment) (state : State) (e : exn) :
  getcL ac0 e0 state = Raise e -> arithmetic_exn e.
Proof.
  unfold getcL, arithmetic_exn. intros H. step_exn H;
    try (injection H as <-); try close_exn.
Qed.

Lemma getcD_exn (ac0 : aircraft) (e0 : environment) (state : State) (e : exn) :
  getcD ac0 e0 state = Raise e -> arithmetic_exn e.
Proof.
  unfold getcD. intros H. step_exn H; try discriminate H;
    try (injection H as <-);
    try (eapply getcL_exn; eassumption);
    unfold arithmetic_exn; close_exn.
Qed.

Lemma getD_exn (ac0 : aircraft) (e0 : environment) (state : State) (e : exn) :
  getD ac0 e0 state = Raise e -> arithmetic_exn e.
Proof.
  unfold getD. intros H. step_exn H;
    try (injection H as <-);
    try (eapply getcD_exn; eassumption);
    unfold arithmetic_exn; close_exn.
Qed.

Lemma getCost_exn (self : ApproachMDP) (state : State)
    (action0 : option action) (e : exn) :
  getCost self state action0 = Raise e -> arithmetic_exn e.
Proof.
  destruct state as [[[a v] c] d]. unfold getCost. intros H.
  step_exn H; try discriminate H; try (injection H as <-);
    try (eapply getcL_exn; eassumption);
    try (eapply getcD_exn; eassumption);
    try (eapply getD_exn; eassumption);
    unfold arithmetic_exn; close_exn.
Qed.

(** ** The rollout loop *)

Section RolloutFacts.
Variable mdpInstance : ApproachMDP.
Variable pi : gmap State action.

Lemma first_outcome_In (l : list outcome) (o : outcome) :
  first_outcome l = Ok o -> In o l.
Proof.
  destruct l as [| o' l']; simpl; intros H; [discriminate H |].
  injection H as ->. left. reflexivity.
Qed.

(** A pass of the body that succeeds took the head of a list that the
    flying branch of [succAndProbReward] returned. *)
Lemma body_Ok (lv lv' : loopvars) :
  (0 < s_dist (lv_state lv))%Z ->
  body mdpInstance pi lv = Ok lv' ->
  exists l o,
    succAndProbReward mdpInstance (lv_state lv) (pi !! lv_state lv) = Ok l
    /\ flown mdpInstance (lv_state lv) (pi !! lv_state lv) l
    /\ first_outcome l = Ok o
    /\ lv_state lv' = o_state o
    /\ lv_action lv' = pi !! lv_state lv.
Proof.
  intros Hd H. unfold body in H.
  apply bind_Ok in H as (tas & _ & H).
  apply bind_Ok in H as (l & Hl & H).
  apply bind_Ok in H as (o & Ho & H).
  exists l, o. destruct o as [[s' p] r]. injection H as <-.
  repeat split; try assumption.
  apply succAndProbReward_flown; assumption.
Qed.

Lemma body_dist (lv lv' : loopvars) :
  (0 < s_dist (lv_state lv))%Z ->
  body mdpInstance pi lv = Ok lv' ->
  s_dist (lv_state lv') = (s_dist (lv_state lv) - dD mdpInstance)%Z.
Proof.
  intros Hd H. destruct (body_Ok lv lv' Hd H) as (l & o & _ & Hf & Ho & -> & _).
  destruct Hf as (cost & _ & _ & _ & Hdist & _).
  rewrite Forall_forall in Hdist. apply Hdist.
  apply list_elem_of_In. apply first_outcome_In. exact Ho.
Qed.

(** Under the guard of the loop the only exceptions of the body are those
    of the arithmetic: taking [[0]] never fails. *)
Lemma body_exn (lv : loopvars) (e : exn) :
  (0 < s_dist (lv_state lv))%Z ->
  body mdpInstance pi lv = Raise e -> arithmetic_exn e.
Proof.
  intros Hd H. unfold body in H.
  destruct (recordedTAS mdpInstance (lv_state lv)) as [tas | e1] eqn:Et;
    simpl bind in H.
  - destruct (succAndProbReward mdpInstance (lv_state lv) (pi !! lv_state lv))
      as [l | e2] eqn:El; simpl bind in H.
    + apply succAndProbReward_flown in El; [| exact Hd].
      destruct El as (cost & _ & Hne & _).
      destruct l as [| [[s' p] r] l']; [contradiction |].
      simpl in H. discriminate H.
    + injection H as <-. apply succAndProbReward_raises in El; [| exact Hd].
      apply getCost_exn in El. exact El.
  - injection H as <-. unfold recordedTAS in Et.
    destruct (pydiv _ _) eqn:Ed in Et; simpl bind in Et; [discriminate Et |].
    injection Et as <-. apply pydiv_exn in Ed. subst. discriminate.
Qed.

Lemma loop_exn (fuel : nat) (lv : loopvars) (e : exn) :
  loop mdpInstance pi fuel lv = Some (Raise e) -> arithmetic_exn e.
Proof.
  revert lv. induction fuel as [| fuel IH]; intros lv H; simpl in H.
  - destruct (0 <? s_dist (lv_state lv))%Z; discriminate H.
  - destruct (Z.ltb_spec 0 (s_dist (lv_state lv))) as [Hd | _]; [| discriminate H].
    destruct (body mdpInstance pi lv) as [lv' | e'] eqn:Eb.
    + apply (IH lv'). exact H.
    + injection H as <-. apply (body_exn lv e' Hd Eb).
Qed.

Lemma loop_stops (fuel : nat) (lv : loopvars) :
  (s_dist (lv_state lv) <= 0)%Z ->
  loop mdpInstance pi fuel lv = Some (Ok lv).
Proof.
  intros Hd. destruct fuel; simpl;
    destruct (Z.ltb_spec 0 (s_dist (lv_state lv))); try lia; reflexivity.
Qed.

(** [fuel] passes suffice when [fuel * dD] covers the distance. *)
Lemma loop_terminates (fuel : nat) (lv : loopvars) :
  (0 < dD mdpInstance)%Z ->
  (s_dist (lv_state lv) <= Z.of_nat fuel * dD mdpInstance)%Z ->
  exists r, loop mdpInstance pi fuel lv = Some r.
Proof.
  intros HdD. revert lv. induction fuel as [| fuel IH]; intros lv Hd.
  - exists (Ok lv). apply loop_stops. lia.
  - simpl. destruct (Z.ltb_spec 0 (s_dist (lv_state lv))) as [Hpos | Hle].
    + destruct (body mdpInstance pi lv) as [lv' | e] eqn:Eb.
      * apply IH. rewrite (body_dist lv lv' Hpos Eb). lia.
      * exists (Raise e). reflexivity.
    + exists (Ok lv). reflexivity.
Qed.

Lemma loop_more_fuel (fuel fuel' : nat) (lv : loopvars)
    (r : result loopvars) :
  (fuel <= fuel')%nat ->
  loop mdpInstance pi fuel lv = Some r ->
  loop mdpInstance pi fuel' lv = Some r.
Proof.
  revert fuel' lv. induction fuel as [| fuel IH]; intros fuel' lv Hle H.
  - simpl in H. destruct (Z.ltb_spec 0 (s_dist (lv_state lv))) as [Hpos | Hn];
      [discriminate H |].
    injection H as <-. apply loop_stops. exact Hn.
  - destruct fuel' as [| fuel']; [lia |]. simpl in H. simpl.
    destruct (0 <? s_dist (lv_state lv))%Z; [| exact H].
    destruct (body mdpInstance pi lv) as [lv' | e]; [| exact H].
    apply IH; [lia | exact H].
Qed.
End RolloutFacts.

(** [ceiling(d / step)] for a positive [step]. *)
Definition ceil_div (d step : Z) : Z := ((d + step - 1) / step)%Z.

Lemma ceil_div_covers (d step : Z) :
  (0 < step)%Z -> (d <= Z.of_nat (Z.to_nat (ceil_div d step)) * step)%Z.
Proof.
  intros Hs. unfold ceil_div.
  pose proof (Z.div_mod (d + step - 1) step ltac:(lia)) as Hdm.
  pose proof (Z.mod_pos_bound (d + step - 1) step Hs) as Hb.
  assert (Hn : Z.of_nat (Z.to_nat ((d + step - 1) / step))
               = Z.max 0 ((d + step - 1) / step)) by lia.
  rewrite Hn. nia.
Qed.

(** C3: at a state with [distance > 0] every successor's distance is the
    state's distance minus [dD], whatever the action; so, for a positive
    step distance, the loop [while state[3] > 0] ends within
    [ceiling(distance / dD)] passes: that much fuel, one unit a pass, is
    never exhausted, and more fuel changes nothing. *)
Theorem rollout_distance_decreases (mdpInstance : ApproachMDP)
    (pi : gmap State action) (lv : loopvars) :
  (0 < dD mdpInstance)%Z ->
  (forall state action0 l,
     (0 < s_dist state)%Z ->
     succAndProbReward mdpInstance state action0 = Ok l ->
     Forall (fun o => s_dist (o_state o)
                      = (s_dist state - dD mdpInstance)%Z) l)
  /\ (exists r,
        loop mdpInstance pi
          (Z.to_nat (ceil_div (s_dist (lv_state lv)) (dD mdpInstance))) lv
        = Some r
        /\ forall fuel,
             (Z.to_nat (ceil_div (s_dist (lv_state lv)) (dD mdpInstance))
              <= fuel)%nat ->
             loop mdpInstance pi fuel lv = Some r).
Proof.
  intros HdD. split.
  - intros state action0 l Hd H.
    apply succAndProbReward_flown in H; [| exact Hd].
    destruct H as (cost & _ & _ & _ & Hdist & _). exact Hdist.
  - destruct (loop_terminates mdpInstance pi
                (Z.to_nat (ceil_div (s_dist (lv_state lv)) (dD mdpInstance)))
                lv HdD) as [r Hr].
    + apply ceil_div_covers. exact HdD.
    + exists r. split; [exact Hr |].
      intros fuel Hle. apply (loop_more_fuel mdpInstance pi _ fuel lv r Hle Hr).
Qed.

Lemma rollout_distance_decreases_witness :
  (0 < dD mdp737)%Z
  /\ exists r,
       loop mdp737 ∅ 250
         {| lv_state := initState; lv_action := None; lv_traces := traces_init |}
       = Some r.
Proof.
  assert (HdD : (0 < dD mdp737)%Z) by (simpl; lia).
  split; [exact HdD |].
  destruct (rollout_distance_decreases mdp737 ∅
              {| lv_state := initState; lv_action := None;
                 lv_traces := traces_init |} HdD) as [_ (r & Hr & _)].
  exists r. exact Hr.
Defined.

(** The states at which the loop calls [succAndProbReward], in order: the
    state of every pass that reaches the call, i.e. whose [TAS] record did
    not raise. *)
Fixpoint calls (mdpInstance : ApproachMDP) (pi : gmap State action)
    (fuel : nat) (lv : loopvars) : list State :=
  if (0 <? s_dist (lv_state lv))%Z then
    match fuel with
    | O => []
    | S fuel' =>
        match recordedTAS mdpInstance (lv_state lv) with
        | Ok _ =>
            lv_state lv ::
            match body mdpInstance pi lv with
            | Ok lv' => calls mdpInstance pi fuel' lv'
            | Raise _ => []
            end
        | Raise _ => []
        end
    end
  else [].

Lemma calls_positive (mdpInstance : ApproachMDP) (pi : gmap State action)
    (fuel : nat) (lv : loopvars) :
  Forall (fun state => (0 < s_dist state)%Z) (calls mdpInstance pi fuel lv).
Proof.
  revert lv. induction fuel as [| fuel IH]; intros lv; simpl.
  - destruct (0 <? s_dist (lv_state lv))%Z; constructor.
  - destruct (Z.ltb_spec 0 (s_dist (lv_state lv))) as [Hd | _]; [| constructor].
    destruct (recordedTAS mdpInstance (lv_state lv)); [| constructor].
    constructor; [exact Hd |].
    destruct (body mdpInstance pi lv); [apply IH | constructor].
Qed.

(** C10: the loop calls [succAndProbReward] only at states with
    [distance > 0]; there the function, when it returns, returns neither the
    empty list of the terminal state nor the overshoot outcome but the
    outcomes of the flown step, so [[0]] yields an outcome; no run of the
    loop ends in the [IndexError] of an empty list. *)
Theorem rollout_unpacks_safely (mdpInstance : ApproachMDP)
    (pi : gmap State action) (fuel : nat) (lv : loopvars) :
  Forall (fun state => (0 < s_dist state)%Z) (calls mdpInstance pi fuel lv)
  /\ (forall state action0 l,
        (0 < s_dist state)%Z ->
        succAndProbReward mdpInstance state action0 = Ok l ->
        state <> terminalState mdpInstance
        /\ exists o cost,
             first_outcome l = Ok o
             /\ getCost mdpInstance state action0 = Ok cost
             /\ o_reward o = - cost
             /\ s_dist (o_state o) = (s_dist state - dD mdpInstance)%Z)
  /\ (forall e, loop mdpInstance pi fuel lv = Some (Raise e) ->
                e <> IndexError_outcome).
Proof.
  split; [apply calls_positive | split].
  - intros state action0 l Hd H. split; [apply positive_not_terminal; exact Hd |].
    apply succAndProbReward_flown in H; [| exact Hd].
    destruct H as (cost & Hc & Hne & Hr & Hdist & _).
    destruct l as [| o l']; [contradiction |].
    exists o, cost. apply Forall_cons in Hr as [Hr _].
    apply Forall_cons in Hdist as [Hdist _].
    repeat split; assumption.
  - intros e H. apply (loop_exn mdpInstance pi fuel lv e H).
Qed.

(** ** The velocity-profile trace *)

Lemma recordedTAS_value (mdpInstance : ApproachMDP) (state : State) (x : R) :
  recordedTAS mdpInstance state = Ok x ->
  x = env_getRho (env mdpInstance) 0
      / env_getRho (env mdpInstance) (IZR (s_alt state))
      * IZR (s_speed state).
Proof.
  unfold recordedTAS. intros H. apply bind_Ok in H as (r & Hr & H).
  apply pydiv_inv in Hr as [_ ->]. injection H as <-. reflexivity.
Qed.

Lemma recordedTAS_ok (mdpInstance : ApproachMDP) (state : State) :
  env_getRho (env mdpInstance) (IZR (s_alt state)) <> 0 ->
  recordedTAS mdpInstance state
  = Ok (env_getRho (env mdpInstance) 0
        / env_getRho (env mdpInstance) (IZR (s_alt state))
        * IZR (s_speed state)).
Proof.
  intros H. unfold recordedTAS. rewrite pydiv_ok by exact H. reflexivity.
Qed.

(** What a pass of the loop and the code after the loop append to [TAS]. *)
Lemma body_TAS (mdpInstance : ApproachMDP) (pi : gmap State action)
    (lv lv' : loopvars) :
  body mdpInstance pi lv = Ok lv' ->
  TAS (lv_traces lv')
  = TAS (lv_traces lv)
    ++ [env_getRho (env mdpInstance) 0
        / env_getRho (env mdpInstance) (IZR (s_alt (lv_state lv)))
        * IZR (s_speed (lv_state lv))].
Proof.
  intros H. unfold body in H.
  apply bind_Ok in H as (tas & Ht & H). apply recordedTAS_value in Ht. subst tas.
  apply bind_Ok in H as (l & _ & H).
  apply bind_Ok in H as ([[s' p] r] & _ & H). injection H as <-. simpl.
  destruct (decide (lv_action lv = pi !! lv_state lv));
    destruct (lv_action lv) as [[] |]; destruct (pi !! lv_state lv) as [[] |];
    reflexivity.
Qed.

Lemma lastState_TAS (mdpInstance : ApproachMDP) (lv lv' : loopvars) :
  lastState mdpInstance lv = Ok lv' ->
  TAS (lv_traces lv')
  = TAS (lv_traces lv)
    ++ [env_getRho (env mdpInstance) 0
        / env_getRho (env mdpInstance) (IZR (s_alt (lv_state lv)))
        * IZR (s_speed (lv_state lv))].
Proof.
  intros H. unfold lastState in H.
  apply bind_Ok in H as (tas & Ht & H). apply recordedTAS_value in Ht. subst tas.
  injection H as <-. simpl. destruct (lv_action lv) as [[] |]; reflexivity.
Qed.

Lemma ISA_getRho_sea_level : ISA.getRho 0 = ISA.rho_0.
Proof.
  unfold ISA.getRho. destruct (Rlt_dec ISA.h_t 0) as [L | _].
  - unfold ISA.h_t in L. lra.
  - unfold ISA.getRho_below.
    replace (1 - ISA.L_b * 0 / ISA.T_0) with 1 by (unfold ISA.T_0; field; lra).
    unfold Rpower. rewrite ln_1, Rmult_0_r, exp_0. ring.
Qed.

Lemma ISA_exponent_negative : 1 + ISA.g * ISA.M_g / ISA.R_ / ISA.L_b < 0.
Proof.
  unfold ISA.g, ISA.M_g, ISA.R_, ISA.L_b.
  replace (1 + 9.80665 * 0.0289644 / 8.31432 / -0.0065)
    with ((8.31432 * -0.0065 + 9.80665 * 0.0289644) * / (8.31432 * -0.0065))
    by (field; lra).
  assert (Hden : / (8.31432 * -0.0065) < 0) by (apply Rinv_lt_0_compat; lra).
  assert (Hnum : 0 < 8.31432 * -0.0065 + 9.80665 * 0.0289644) by lra.
  nra.
Qed.

Lemma ISA_getRho_tropopause : ISA.getRho 11000 < ISA.rho_0.
Proof.
  unfold ISA.getRho. destruct (Rlt_dec ISA.h_t 11000) as [L | _].
  - unfold ISA.h_t in L. lra.
  - unfold ISA.getRho_below.
    assert (Hb : 1 < 1 - ISA.L_b * 11000 / ISA.T_0)
      by (unfold ISA.L_b, ISA.T_0; lra).
    assert (Hln : 0 < ln (1 - ISA.L_b * 11000 / ISA.T_0)).
    { rewrite <- ln_1. apply ln_increasing; lra. }
    assert (Hp : Rpower (1 - ISA.L_b * 11000 / ISA.T_0)
                        (1 + ISA.g * ISA.M_g / ISA.R_ / ISA.L_b) < 1).
    { unfold Rpower. apply Rlt_le_trans with (exp 0); [| rewrite exp_0; lra].
      apply exp_increasing. pose proof ISA_exponent_negative. nra. }
    unfold ISA.rho_0. nra.
Qed.

(** Without the square root the recorded value exceeds the true airspeed
    wherever the air is thinner than at sea level. *)
Lemma recordedTAS_exceeds (mdpInstance : ApproachMDP) (state : State) :
  0 < env_getRho (env mdpInstance) (IZR (s_alt state)) ->
  env_getRho (env mdpInstance) (IZR (s_alt state))
  < env_getRho (env mdpInstance) 0 ->
  (0 < s_speed state)%Z ->
  TAS_of mdpInstance state
  < env_getRho (env mdpInstance) 0
    / env_getRho (env mdpInstance) (IZR (s_alt state))
    * IZR (s_speed state).
Proof.
  intros Hpos Hlt Hv. unfold TAS_of.
  set (r := env_getRho (env mdpInstance) 0
            / env_getRho (env mdpInstance) (IZR (s_alt state))).
  assert (Hr : 1 < r).
  { unfold r. apply Rmult_lt_reg_r with (r := env_getRho (env mdpInstance) (IZR (s_alt state))); [exact Hpos |].
    unfold Rdiv. rewrite Rmult_assoc, Rinv_l by lra. lra. }
  assert (Hs : sqrt r < r) by (apply sqrt_less; lra).
  assert (Hv' : 0 < IZR (s_speed state)) by (apply IZR_lt; exact Hv).
  nra.
Qed.

(** C5, on the code: the rollout appends [rho(0) / rho(alt) * v] to [TAS],
    in the loop and after it; at the start state of the scenario this is
    more than the true airspeed [v * sqrt(rho(0) / rho(alt))] that [getCost]
    uses. *)
Theorem recordedTAS_initState :
  recordedTAS mdp737 initState
  = Ok (ISA.getRho 0 / ISA.getRho 11000 * 105)
  /\ 105 * sqrt (ISA.getRho 0 / ISA.getRho 11000)
     < ISA.getRho 0 / ISA.getRho 11000 * 105
  /\ TAS_of mdp737 initState = 105 * sqrt (ISA.getRho 0 / ISA.getRho 11000).
Proof.
  pose proof (ISA_getRho_pos 11000) as Hpos.
  split; [| split].
  - rewrite recordedTAS_ok; [reflexivity |].
    change (ISA.getRho 11000 <> 0). lra.
  - apply (recordedTAS_exceeds mdp737 initState).
    + exact Hpos.
    + change (ISA.getRho 11000 < ISA.getRho 0).
      rewrite ISA_getRho_sea_level. apply ISA_getRho_tropopause.
    + unfold initState, s_speed. simpl. lia.
  - reflexivity.
Qed.

Lemma mdp737_getCost (state : State) (action0 : option action) :
  (0 < s_speed state)%Z ->
  (0 <= s_config state < 5)%Z ->
  exists cost, getCost mdp737 state action0 = Ok cost.
Proof.
  intros Hv Hc. eexists. apply getCost_ok.
  - intros h. apply ISA_getRho_pos.
  - simpl. lra.
  - rewrite mdp737_kFuel. lra.
  - exact Hv.
  - exact Hc.
Qed.

Lemma succAndProbReward_probabilities_witness :
  (0 < s_dist initState)%Z
  /\ exists l, succAndProbReward mdp737 initState (Some descend) = Ok l
               /\ prob_total l = 1.
Proof.
  assert (Hd : (0 < s_dist initState)%Z) by (unfold initState, s_dist; simpl; lia).
  split; [exact Hd |].
  destruct (succAndProbReward_probabilities mdp737 initState (Some descend) Hd)
    as [Hsum Hret].
  destruct (mdp737_getCost initState (Some descend)) as [cost Hc].
  - unfold initState, s_speed. simpl. lia.
  - unfold initState, s_config. simpl. lia.
  - destruct (Hret cost Hc) as [l Hl]. exists l. split; [exact Hl |].
    apply (Hsum l Hl).
Defined.

(** ** Bucketing of the trajectory *)

(** The three line traces: [dist]/[alt], [distDec]/[altDec] and
    [distAcc]/[altAcc]. *)
Inductive bucket : Type := ConstantSpeed | Deceleration | Acceleration.

Global Instance bucket_eq_dec : EqDecision bucket.
Proof. solve_decision. Defined.

(** The line trace the loop files a state under, for an action: the
    [if action == 'decel' ... elif action == 'accel' ... else] of the body. *)
Definition bucket_of (action0 : option action) : bucket :=
  match action0 with
  | Some decel => Deceleration
  | Some accel => Acceleration
  | _ => ConstantSpeed
  end.

Definition bucket_dist (b : bucket) (t : traces) : list R :=
  match b with
  | ConstantSpeed => dist t
  | Deceleration => distDec t
  | Acceleration => distAcc t
  end.

Definition bucket_alt (b : bucket) (t : traces) : list Z :=
  match b with
  | ConstantSpeed => alt t
  | Deceleration => altDec t
  | Acceleration => altAcc t
  end.

(** How often a pass appends its state to the line trace [b]. *)
Definition pushes (b : bucket) (prevAction action0 : option action) : nat :=
  (if decide (bucket_of action0 = b) then 1 else 0)
  + (if decide (prevAction = action0) then 0
     else if decide (bucket_of prevAction = b) then 1 else 0).

Section BucketFacts.
Variable mdpInstance : ApproachMDP.
Variable pi : gmap State action.

Lemma body_buckets (lv lv' : loopvars) (b : bucket) :
  body mdpInstance pi lv = Ok lv' ->
  bucket_dist b (lv_traces lv')
  = bucket_dist b (lv_traces lv)
    ++ replicate (pushes b (lv_action lv) (pi !! lv_state lv))
                 (km (lv_state lv))
  /\ bucket_alt b (lv_traces lv')
     = bucket_alt b (lv_traces lv)
       ++ replicate (pushes b (lv_action lv) (pi !! lv_state lv))
                    (s_alt (lv_state lv)).
Proof.
  intros H. unfold body in H.
  apply bind_Ok in H as (tas & _ & H).
  apply bind_Ok in H as (l & _ & H).
  apply bind_Ok in H as ([[s' p] r] & _ & H). injection H as <-.
  unfold pushes.
  destruct (decide (lv_action lv = pi !! lv_state lv)) as [E | N].
  - rewrite Nat.add_0_r.
    destruct (pi !! lv_state lv) as [[] |]; destruct b; simpl;
      rewrite ?app_nil_r; split; reflexivity.
  - destruct (lv_action lv) as [[] |]; destruct (pi !! lv_state lv) as [[] |];
      destruct b; simpl; rewrite ?app_nil_r, <- ?app_assoc;
      split; reflexivity.
Qed.

Lemma body_returns (lv : loopvars) (cost : R) :
  (0 < s_dist (lv_state lv))%Z ->
  env_getRho (env mdpInstance) (IZR (s_alt (lv_state lv))) <> 0 ->
  getCost mdpInstance (lv_state lv) (pi !! lv_state lv) = Ok cost ->
  exists lv', body mdpInstance pi lv = Ok lv'.
Proof.
  intros Hd Hrho Hc. unfold body.
  rewrite recordedTAS_ok by exact Hrho. simpl bind.
  destruct (succAndProbReward_returns mdpInstance _ _ cost Hd Hc) as [l Hl].
  pose proof (succAndProbReward_flown mdpInstance _ _ l Hd Hl)
    as (_ & _ & Hne & _).
  rewrite Hl. simpl bind. destruct l as [| [[s' p] r] l']; [contradiction |].
  simpl. eexists. reflexivity.
Qed.
End BucketFacts.




(** ** The deterministic step *)

(** [bestState] of each branch of [succAndProbReward]: the head of the
    returned list, which the rollout takes with [[0]]. *)
Definition primary (self : ApproachMDP) (state : State)
    (action0 : option action) : State :=
  let '(a, v, c, d) := state in
  match action0 with
  | Some climb => (a - dA self, v, c, d - dD self)%Z
  | Some descend => (a - dA self, v, c, d - dD self)%Z
  | Some extend => (a, v, c + 1, d - dD self)%Z
  | Some retract => (a, v, c - 1, d - dD self)%Z
  | Some accel => (a, v + dS self, c, d - dD self)%Z
  | Some decel => (a, v - dS self, c, d - dD self)%Z
  | _ => (a, v, c, d - dD self)%Z
  end.

Section StepFacts.
Variable mdpInstance : ApproachMDP.
Variable pi : gmap State action.

Lemma succAndProbReward_head (state : State) (action0 : option action)
    (l : list outcome) :
  (0 < s_dist state)%Z ->
  succAndProbReward mdpInstance state action0 = Ok l ->
  exists o, first_outcome l = Ok o
            /\ o_state o = primary mdpInstance state action0.
Proof.
  intros Hd H. pose proof (positive_not_terminal mdpInstance state Hd) as Hnt.
  destruct state as [[[a v] c] d]. unfold s_dist in Hd. simpl in Hd.
  unfold succAndProbReward in H.
  case_decide; [contradiction |].
  unfold s_dist in H. simpl snd in H.
  destruct (Z.leb_spec d 0) as [L | _]; [lia |].
  apply bind_Ok in H as (cost & Hc & H).
  destruct action0 as [[] |]; injection H as <-; eexists;
    (split; [reflexivity | reflexivity]).
Qed.

(** A pass moves to the primary successor and keeps the action it looked
    up. *)
Lemma body_state (lv lv' : loopvars) :
  (0 < s_dist (lv_state lv))%Z ->
  body mdpInstance pi lv = Ok lv' ->
  lv_state lv' = primary mdpInstance (lv_state lv) (pi !! lv_state lv)
  /\ lv_action lv' = pi !! lv_state lv.
Proof.
  intros Hd H.
  destruct (body_Ok mdpInstance pi lv lv' Hd H) as (l & o & Hl & _ & Ho & Hs & Ha).
  destruct (succAndProbReward_head _ _ l Hd Hl) as (o' & Ho' & Hp).
  rewrite Ho in Ho'. injection Ho' as <-.
  split; [rewrite Hs; exact Hp | exact Ha].
Qed.

Lemma lastState_buckets (lv lv' : loopvars) :
  lastState mdpInstance lv = Ok lv' ->
  lv_action lv = Some decel ->
  lv_state lv' = lv_state lv
  /\ dist (lv_traces lv') = dist (lv_traces lv)
  /\ alt (lv_traces lv') = alt (lv_traces lv)
  /\ distDec (lv_traces lv') = distDec (lv_traces lv) ++ [km (lv_state lv)]
  /\ altDec (lv_traces lv') = altDec (lv_traces lv) ++ [s_alt (lv_state lv)].
Proof.
  intros H Ha. unfold lastState in H.
  apply bind_Ok in H as (tas & _ & H). rewrite Ha in H.
  injection H as <-. simpl. repeat split; reflexivity.
Qed.
End StepFacts.

(** A two-step trajectory: [level] at 2 km, then [decel] at 1 km. *)
Definition twoStepStart : State := (1000, 100, 0, 2000)%Z.
Definition twoStepBoundary : State := (1000, 100, 0, 1000)%Z.

Definition twoStepPolicy : gmap State action :=
  {[ twoStepStart := level; twoStepBoundary := decel ]}.

Lemma twoStepPolicy_start : twoStepPolicy !! twoStepStart = Some level.
Proof. vm_compute. reflexivity. Qed.

Lemma twoStepPolicy_boundary : twoStepPolicy !! twoStepBoundary = Some decel.
Proof. vm_compute. reflexivity. Qed.

Lemma mdp737_body_returns (pi : gmap State action) (lv : loopvars) :
  (0 < s_dist (lv_state lv))%Z ->
  (0 < s_speed (lv_state lv))%Z ->
  (0 <= s_config (lv_state lv) < 5)%Z ->
  exists lv', body mdp737 pi lv = Ok lv'.
Proof.
  intros Hd Hv Hc.
  destruct (mdp737_getCost (lv_state lv) (pi !! lv_state lv) Hv Hc) as [cost Hcost].
  apply (body_returns mdp737 pi lv cost Hd); [| exact Hcost].
  pose proof (ISA_getRho_pos (IZR (s_alt (lv_state lv)))) as H.
  change (ISA.getRho (IZR (s_alt (lv_state lv))) <> 0). lra.
Qed.

Ltac state_arith :=
  unfold twoStepStart, twoStepBoundary, s_dist, s_speed, s_config, s_alt;
  simpl; lia.


(** The whole rollout of the two-step trajectory: the boundary state is in
    the [dist]/[alt] trace of [level] and in the [distDec]/[altDec] trace of
    [decel]. *)
Example two_step_rollout :
  exists lv,
    plotTrajectory mdp737 twoStepPolicy 2 twoStepStart = Some (Ok (Some lv))
    /\ lv_state lv = (1000, 95, 0, 0)%Z
    /\ dist (lv_traces lv) = [km twoStepStart; km twoStepBoundary]
    /\ alt (lv_traces lv) = [1000; 1000]%Z
    /\ distDec (lv_traces lv) = [km twoStepBoundary; km (1000, 95, 0, 0)%Z]
    /\ altDec (lv_traces lv) = [1000; 1000]%Z.
Proof.
  set (lv0 := {| lv_state := twoStepStart;
                 lv_action := twoStepPolicy !! twoStepStart;
                 lv_traces := traces_init |}).
  destruct (mdp737_body_returns twoStepPolicy lv0) as [lv1 Hb1];
    [unfold lv0; state_arith ..|].
  assert (Hd0 : (0 < s_dist (lv_state lv0))%Z) by (unfold lv0; state_arith).
  destruct (body_state mdp737 twoStepPolicy lv0 lv1 Hd0 Hb1) as [Hs1 Ha1].
  change (lv_state lv0) with twoStepStart in Hs1, Ha1.
  rewrite twoStepPolicy_start in Hs1, Ha1.
  change (primary mdp737 twoStepStart (Some level)) with twoStepBoundary in Hs1.
  destruct (mdp737_body_returns twoStepPolicy lv1) as [lv2 Hb2];
    [rewrite Hs1; state_arith ..|].
  assert (Hd1 : (0 < s_dist (lv_state lv1))%Z) by (rewrite Hs1; state_arith).
  destruct (body_state mdp737 twoStepPolicy lv1 lv2 Hd1 Hb2) as [Hs2 Ha2].
  rewrite Hs1, twoStepPolicy_boundary in Hs2, Ha2.
  change (primary mdp737 twoStepBoundary (Some decel))
    with ((1000, 95, 0, 0)%Z : State) in Hs2.
  pose proof (body_buckets mdp737 twoStepPolicy lv0 lv1 ConstantSpeed Hb1) as [D1 A1].
  pose proof (body_buckets mdp737 twoStepPolicy lv0 lv1 Deceleration Hb1) as [D1' A1'].
  pose proof (body_buckets mdp737 twoStepPolicy lv1 lv2 ConstantSpeed Hb2) as [D2 A2].
  pose proof (body_buckets mdp737 twoStepPolicy lv1 lv2 Deceleration Hb2) as [D2' A2'].
  rewrite Ha1, Hs1, twoStepPolicy_boundary in D2, A2, D2', A2'.
  change (lv_state lv0) with twoStepStart in D1, A1, D1', A1'.
  change (lv_action lv0) with (twoStepPolicy !! twoStepStart) in D1, A1, D1', A1'.
  rewrite twoStepPolicy_start in D1, A1, D1', A1'.
  simpl in D1, A1, D1', A1', D2, A2, D2', A2'.
  rewrite D1 in D2. rewrite A1 in A2. rewrite D1' in D2'. rewrite A1' in A2'.
  assert (Hlast : exists lv3, lastState mdp737 lv2 = Ok lv3).
  { unfold lastState. rewrite recordedTAS_ok.
    - simpl bind. eexists. reflexivity.
    - pose proof (ISA_getRho_pos (IZR (s_alt (lv_state lv2)))) as H.
      change (ISA.getRho (IZR (s_alt (lv_state lv2))) <> 0). lra. }
  destruct Hlast as [lv3 Hl].
  destruct (lastState_buckets mdp737 lv2 lv3 Hl Ha2) as (S3 & D3 & A3 & D3' & A3').
  exists lv3. split.
  - unfold plotTrajectory, initialState.
    rewrite decide_True by (rewrite twoStepPolicy_start; eexists; reflexivity).
    fold lv0. simpl loop.
    change (lv_state lv0) with twoStepStart.
    change (0 <? s_dist twoStepStart)%Z with true. cbv iota.
    rewrite Hb1, Hs1.
    change (0 <? s_dist twoStepBoundary)%Z with true. cbv iota.
    rewrite Hb2, Hs2.
    change (0 <? s_dist (1000, 95, 0, 0)%Z)%Z with false. cbv iota.
    rewrite Hl. reflexivity.
  - rewrite S3, D3, A3, D3', A3', Hs2, D2, A2, D2', A2'.
    repeat split; reflexivity.
Qed.

(** ** The neighbourhood search *)

(** The four perturbed states tried for a counter value [i], in the order
    of the source: altitude [+i], altitude [-i], speed [+i], speed [-i]. *)
Definition probes (oldState : State) (i : Z) : list State :=
  let '(a, v, c, d) := oldState in
  [((a + i)%Z, v, c, d); ((a - i)%Z, v, c, d);
   (a, (v + i)%Z, c, d); (a, (v - i)%Z, c, d)].

(** The perturbed states for the counter values [i+1 .. i+n], in order. *)
Fixpoint candidates (oldState : State) (i : Z) (n : nat) : list State :=
  match n with
  | O => []
  | S n' => probes oldState (i + 1) ++ candidates oldState (i + 1) n'
  end.

(** The first state of a list that has a policy entry. *)
Definition first_entry (pi : gmap State action) (l : list State)
    : option State :=
  find (fun s => bool_decide (is_Some (pi !! s))) l.

Section SearchFacts.
Variable pi : gmap State action.
Variable oldState : State.

Hypothesis start_missing : pi !! oldState = None.
(** Every state of the policy has a positive speed. *)
Hypothesis speeds_positive :
  forall k, is_Some (pi !! k) -> (0 < s_speed k)%Z.

Lemma first_entry_app (l1 l2 : list State) :
  first_entry pi (l1 ++ l2)
  = match first_entry pi l1 with
    | Some s => Some s
    | None => first_entry pi l2
    end.
Proof.
  unfold first_entry. induction l1 as [| x l1 IH]; simpl; [reflexivity |].
  destruct (bool_decide (is_Some (pi !! x))); [reflexivity | exact IH].
Qed.

Lemma first_entry_is_Some (l : list State) (s : State) :
  first_entry pi l = Some s -> is_Some (pi !! s).
Proof.
  unfold first_entry. intros H. apply find_some in H as [_ H].
  apply bool_decide_eq_true_1 in H. exact H.
Qed.

Lemma searchStep_spec (i : Z) :
  searchStep pi oldState i
  = if (i =? Z.max (s_alt oldState) (s_speed oldState))%Z
    then inl (first_entry pi (probes oldState i))
    else match first_entry pi (probes oldState i) with
         | Some s => inl (Some s)
         | None => inr tt
         end.
Proof.
  pose proof start_missing as Hmiss.
  destruct oldState as [[[a v] c] d] eqn:Eold.
  unfold searchStep, probes, first_entry, s_alt, s_speed. simpl.
  destruct (decide (is_Some (pi !! ((a + i)%Z, v, c, d)))) as [H1 | H1].
  { rewrite bool_decide_eq_true_2 by exact H1.
    destruct (i =? Z.max a v)%Z; reflexivity. }
  rewrite (bool_decide_eq_false_2 _ H1).
  destruct (decide (is_Some (pi !! ((a - i)%Z, v, c, d)))) as [H2 | H2].
  { rewrite bool_decide_eq_true_2 by exact H2.
    destruct (i =? Z.max a v)%Z; reflexivity. }
  rewrite (bool_decide_eq_false_2 _ H2).
  destruct (decide (is_Some (pi !! (a, (v + i)%Z, c, d)))) as [H3 | H3].
  { rewrite bool_decide_eq_true_2 by exact H3.
    destruct (i =? Z.max a v)%Z; reflexivity. }
  rewrite (bool_decide_eq_false_2 _ H3).
  destruct (decide (is_Some (pi !! (a, (v - i)%Z, c, d)))) as [H4 | H4].
  - rewrite bool_decide_eq_true_2 by exact H4.
    destruct (Z.eqb_spec i (Z.max a v)) as [E | _].
    + exfalso. apply speeds_positive in H4. unfold s_speed in H4.
      simpl in H4. lia.
    + rewrite decide_True by exact H4. reflexivity.
  - rewrite (bool_decide_eq_false_2 _ H4).
    destruct (i =? Z.max a v)%Z; [reflexivity |].
    rewrite decide_False; [reflexivity |].
    apply eq_None_not_Some. exact Hmiss.
Qed.

Lemma search_spec (n : nat) :
  forall (i : Z) (fuel : nat),
    (i + Z.of_nat (S n))%Z = Z.max (s_alt oldState) (s_speed oldState) ->
    (S n <= fuel)%nat ->
    search pi fuel oldState i
    = Some (first_entry pi (candidates oldState i (S n))).
Proof.
  induction n as [| n IH]; intros i fuel Hi Hf;
    (destruct fuel as [| fuel]; [lia |]); simpl search;
    rewrite searchStep_spec.
  - destruct (Z.eqb_spec (i + 1) (Z.max (s_alt oldState) (s_speed oldState)))
      as [_ | N]; [| lia].
    simpl candidates. rewrite app_nil_r. reflexivity.
  - destruct (Z.eqb_spec (i + 1) (Z.max (s_alt oldState) (s_speed oldState)))
      as [E | _]; [lia |].
    change (candidates oldState i (S (S n)))
      with (probes oldState (i + 1) ++ candidates oldState (i + 1) (S n)).
    rewrite first_entry_app.
    destruct (first_entry pi (probes oldState (i + 1))); [reflexivity |].
    apply IH; lia.
Qed.

Lemma initialState_spec (fuel : nat) :
  (1 <= Z.max (s_alt oldState) (s_speed oldState))%Z ->
  (Z.to_nat (Z.max (s_alt oldState) (s_speed oldState)) <= fuel)%nat ->
  initialState pi fuel oldState
  = Some (first_entry pi
            (candidates oldState 0
               (Z.to_nat (Z.max (s_alt oldState) (s_speed oldState))))).
Proof.
  intros HM Hf. unfold initialState.
  rewrite decide_False by (apply eq_None_not_Some; exact start_missing).
  destruct (Z.to_nat (Z.max (s_alt oldState) (s_speed oldState)))
    as [| n] eqn:En; [lia |].
  apply search_spec; lia.
Qed.
End SearchFacts.

Lemma plotTrajectory_from_entry (mdpInstance : ApproachMDP)
    (pi : gmap State action) (fuel : nat) (state s : State) :
  initialState pi fuel state = Some (Some s) ->
  is_Some (pi !! s) ->
  plotTrajectory mdpInstance pi fuel state = plotTrajectory mdpInstance pi fuel s.
Proof.
  intros H Hs. unfold plotTrajectory. rewrite H.
  unfold initialState. rewrite decide_True by exact Hs. reflexivity.
Qed.

(** The search on the data model, where the start state has a positive
    altitude or speed and the states of the policy have positive speeds: the
    rollout tries altitude [+i], altitude [-i], speed [+i], speed [-i] for
    [i = 1, 2, ...] up to the larger of the start altitude and speed, starts
    the simulation from the first of these states that has an entry, and
    returns without a trajectory when none has. *)
Theorem neighbourhood_search (mdpInstance : ApproachMDP)
    (pi : gmap State action) (fuel : nat) (state : State) :
  pi !! state = None ->
  (1 <= Z.max (s_alt state) (s_speed state))%Z ->
  (forall k, is_Some (pi !! k) -> (0 < s_speed k)%Z) ->
  (Z.to_nat (Z.max (s_alt state) (s_speed state)) <= fuel)%nat ->
  let tried :=
    candidates state 0 (Z.to_nat (Z.max (s_alt state) (s_speed state))) in
  initialState pi fuel state = Some (first_entry pi tried)
  /\ (first_entry pi tried = None ->
      plotTrajectory mdpInstance pi fuel state = Some (Ok None))
  /\ (forall s, first_entry pi tried = Some s ->
                is_Some (pi !! s)
                /\ plotTrajectory mdpInstance pi fuel state
                   = plotTrajectory mdpInstance pi fuel s).
Proof.
  intros Hmiss HM Hpos Hf tried.
  pose proof (initialState_spec pi state Hmiss Hpos fuel HM Hf) as Hinit.
  fold tried in Hinit. split; [exact Hinit | split].
  - intros Hnone. unfold plotTrajectory. rewrite Hinit, Hnone. reflexivity.
  - intros s Hs. pose proof (first_entry_is_Some pi tried s Hs) as Hin.
    split; [exact Hin |].
    apply plotTrajectory_from_entry; [| exact Hin].
    rewrite Hinit, Hs. reflexivity.
Qed.

(** The example of the search: the policy holds [(1000, 70, 0, 0)] only and
    the rollout is asked for [(1001, 70, 0, 0)]. *)
Definition lonePolicy : gmap State action := {[ (1000, 70, 0, 0)%Z := level ]}.

Lemma neighbourhood_search_witness :
  initialState lonePolicy 1001 (1001, 70, 0, 0)%Z = Some (Some (1000, 70, 0, 0)%Z)
  /\ plotTrajectory mdp737 lonePolicy 1001 (1001, 70, 0, 0)%Z
     = plotTrajectory mdp737 lonePolicy 1001 (1000, 70, 0, 0)%Z.
Proof.
  destruct (neighbourhood_search mdp737 lonePolicy 1001 (1001, 70, 0, 0)%Z)
    as (Hinit & _ & Hsim).
  - vm_compute. reflexivity.
  - unfold s_alt, s_speed. simpl. lia.
  - intros k [x Hk]. unfold lonePolicy in Hk.
    apply lookup_singleton_Some in Hk as [<- _].
    unfold s_speed. simpl. lia.
  - unfold s_alt, s_speed. simpl. lia.
  - assert (Hfirst :
      first_entry lonePolicy
        (candidates (1001, 70, 0, 0)%Z 0
           (Z.to_nat (Z.max (s_alt (1001, 70, 0, 0)%Z)
                            (s_speed (1001, 70, 0, 0)%Z))))
      = Some (1000, 70, 0, 0)%Z) by (vm_compute; reflexivity).
    split.
    + rewrite Hinit, Hfirst. reflexivity.
    + apply (Hsim _ Hfirst).
Defined.

(** The search stops at the first pass here. *)
Example search_altitude_minus_one :
  initialState lonePolicy 1 (1001, 70, 0, 0)%Z = Some (Some (1000, 70, 0, 0)%Z).
Proof. vm_compute. reflexivity. Qed.

(** Outside the data model: an entry found by the last speed probe, at
    [i = max(altitude, speed)], is given up for the [return None]; it has a
    speed of zero or less. *)
Example search_last_speed_probe :
  initialState {[ (5, 0, 0, 0)%Z := level ]} 5 (5, 5, 0, 0)%Z = Some None.
Proof. vm_compute. reflexivity. Qed.

(** * Further properties of the model *)

(** ** Indexing with Python's negative indices *)

Lemma pyindex_wraps {A : Type} (l : list A) (i : Z) :
  (- Z.of_nat (length l) <= i < 0)%Z ->
  pyindex l i = pyindex l (i + Z.of_nat (length l)).
Proof.
  intros Hi. unfold pyindex.
  destruct (Z.ltb_spec i 0) as [_ | L]; [| lia].
  destruct (Z.ltb_spec (i + Z.of_nat (length l)) 0) as [L | _]; [lia |].
  reflexivity.
Qed.

Lemma pyindex_out_of_range {A : Type} (l : list A) (i : Z) :
  (i < - Z.of_nat (length l) \/ Z.of_nat (length l) <= i)%Z ->
  pyindex l i = Raise IndexError_config.
Proof.
  intros Hi. unfold pyindex.
  destruct (Z.ltb_spec i 0) as [L | G].
  - destruct (Z.leb_spec 0 (i + Z.of_nat (length l))) as [L' | _]; [lia |].
    reflexivity.
  - destruct (Z.leb_spec 0 i) as [_ | L']; [| lia].
    destruct (Z.ltb_spec i (Z.of_nat (length l))) as [L' | _]; [lia |].
    reflexivity.
Qed.

(** ** The aircraft at its limits *)

Lemma pydiv_raises (x y : R) : y = 0 -> pydiv x y = Raise ZeroDivisionError.
Proof. intros ->. apply pydiv_zero. Qed.

Lemma getcL_zero_speed (ac0 : aircraft) (e0 : environment) (a c d : Z) :
  getcL ac0 e0 (a, 0%Z, c, d) = Raise ZeroDivisionError.
Proof.
  unfold getcL. rewrite (pydiv_ok _ _ ac_AR_nonzero). simpl bind.
  apply pydiv_raises. unfold s_speed. simpl. ring.
Qed.

(** X1: at speed zero the aerodynamic functions raise [ZeroDivisionError]
    for every environment and aircraft, [getCost] returns no cost for any
    action, and with some distance left [succAndProbReward] returns no
    outcomes. *)
Theorem zero_speed_raises (self : ApproachMDP) (a c d : Z)
    (action0 : option action) :
  getcL (ac self) (env self) (a, 0%Z, c, d) = Raise ZeroDivisionError
  /\ getcD (ac self) (env self) (a, 0%Z, c, d) = Raise ZeroDivisionError
  /\ getD (ac self) (env self) (a, 0%Z, c, d) = Raise ZeroDivisionError
  /\ (exists e, getCost self (a, 0%Z, c, d) action0 = Raise e)
  /\ ((0 < d)%Z ->
      exists e, succAndProbReward self (a, 0%Z, c, d) action0 = Raise e).
Proof.
  pose proof (getcL_zero_speed (ac self) (env self) a c d) as HcL.
  assert (HcD : getcD (ac self) (env self) (a, 0%Z, c, d)
                = Raise ZeroDivisionError).
  { unfold getcD. rewrite HcL. reflexivity. }
  assert (HD : getD (ac self) (env self) (a, 0%Z, c, d)
               = Raise ZeroDivisionError).
  { unfold getD. rewrite HcD. reflexivity. }
  assert (Hcost : exists e, getCost self (a, 0%Z, c, d) action0 = Raise e).
  { unfold getCost.
    destruct (pydiv (env_getRho (env self) 0) (env_getRho (env self) (IZR a)))
      as [r1 | e1]; simpl bind; [| eexists; reflexivity].
    destruct (pow_half r1) as [h1 | e1]; simpl bind; [| eexists; reflexivity].
    destruct (pydiv (env_getRho (env self) (IZR a)) (env_getRho (env self) 0))
      as [r2 | e2]; simpl bind; [| eexists; reflexivity].
    destruct (pow_half r2) as [h2 | e2]; simpl bind; [| eexists; reflexivity].
    rewrite HcL. simpl bind. eexists. reflexivity. }
  repeat split; try assumption.
  intros Hd. destruct Hcost as [e He].
  destruct (succAndProbReward self (a, 0%Z, c, d) action0) as [l | e'] eqn:El.
  - apply succAndProbReward_flown in El; [| exact Hd].
    destruct El as (cost & Hc & _). rewrite He in Hc. discriminate Hc.
  - exists e'. reflexivity.
Qed.

(** X2: [cDp[config]] follows Python's indexing: a configuration from -5 to
    -1 is read as configuration [config + 5], and outside [-5, 5) [getcD]
    raises the index error (at a nonzero speed and sea-level density). *)
Theorem getcD_config_index (ac0 : aircraft) (e0 : environment)
    (a v c d : Z) :
  v <> 0%Z -> env_getRho e0 0 <> 0 ->
  ((-5 <= c < 0)%Z ->
   getcD ac0 e0 (a, v, c, d) = getcD ac0 e0 (a, v, (c + 5)%Z, d))
  /\ ((c < -5 \/ 5 <= c)%Z ->
      getcD ac0 e0 (a, v, c, d) = Raise IndexError_config).
Proof.
  intros Hv Hrho.
  assert (HcL : forall c', getcL ac0 e0 (a, v, c', d) = Ok (cL_formula ac0 e0 v)).
  { intros c'. apply (getcL_ok ac0 e0 (a, v, c', d)); assumption. }
  split.
  - intros Hc. unfold getcD. rewrite !HcL. simpl bind.
    unfold s_config. simpl.
    rewrite (pyindex_wraps ac_cDp c) by (unfold ac_cDp; simpl; lia).
    reflexivity.
  - intros Hc. unfold getcD. rewrite HcL. simpl bind.
    unfold s_config. simpl.
    rewrite (pyindex_out_of_range ac_cDp c) by (unfold ac_cDp; simpl; lia).
    reflexivity.
Qed.

Lemma getcD_config_index_witness :
  getcD b737 atmosphere (1000, 70, -1, 0)%Z
  = getcD b737 atmosphere (1000, 70, 4, 0)%Z
  /\ getcD b737 atmosphere (1000, 70, 5, 0)%Z = Raise IndexError_config.
Proof.
  assert (Hrho : env_getRho atmosphere 0 <> 0).
  { pose proof (ISA_getRho_pos 0) as H. simpl. lra. }
  split.
  - apply (getcD_config_index b737 atmosphere 1000 70 (-1) 0); [lia | exact Hrho | lia].
  - apply (getcD_config_index b737 atmosphere 1000 70 5 0); [lia | exact Hrho | lia].
Defined.

(** X3: the drag force is the parasite drag plus the induced drag,
    [q*S*cDp[config] + W^2 / (q*S*pi*e*AR)] with [q = 0.5*rho(0)*v^2],
    [S = b^2/AR] and [W = g*mass]; it is positive and depends neither on the
    altitude nor on the distance of the state. *)
Theorem getD_decomposition (self : ApproachMDP) (a v c d : Z) :
  (forall h, 0 < env_getRho (env self) h) ->
  (0 < v)%Z ->
  (0 <= c < 5)%Z ->
  exists cDp_c D,
    ac_cDp !! Z.to_nat c = Some cDp_c
    /\ getD (ac self) (env self) (a, v, c, d) = Ok D
    /\ D = 0.5 * env_getRho (env self) 0 * IZR v ^ 2 * (ac_b ^ 2 / ac_AR) * cDp_c
           + (env_g (env self) * mass (ac self)) ^ 2
             / (0.5 * env_getRho (env self) 0 * IZR v ^ 2 * (ac_b ^ 2 / ac_AR)
                * PI * ac_e * ac_AR)
    /\ 0 < D
    /\ forall a' d', getD (ac self) (env self) (a', v, c, d') = Ok D.
Proof.
  intros Hrho Hv Hc.
  destruct (pyindex_ok ac_cDp c) as (x & Hx & _); [unfold ac_cDp; simpl; lia |].
  pose proof (ac_cDp_pos _ _ Hx) as Hxpos.
  pose proof (Hrho 0) as Hr0. pose proof PI_RGT_0 as Hpi.
  assert (Hv' : 0 < IZR v) by (apply IZR_lt; exact Hv).
  assert (Hq : 0 < 0.5 * env_getRho (env self) 0 * IZR v ^ 2 * (ac_b ^ 2 / ac_AR)).
  { pose proof ac_wing_pos. apply Rmult_lt_0_compat; [| assumption].
    apply Rmult_lt_0_compat; [lra |]. apply pow_lt. exact Hv'. }
  assert (HD : forall a' d',
             getD (ac self) (env self) (a', v, c, d')
             = Ok (Drag_of self (a, v, c, d))).
  { intros a' d'. rewrite (getD_ok self Hrho (a', v, c, d')); [reflexivity | exact Hv | exact Hc]. }
  exists x, (Drag_of self (a, v, c, d)).
  assert (Hform : Drag_of self (a, v, c, d)
     = 0.5 * env_getRho (env self) 0 * IZR v ^ 2 * (ac_b ^ 2 / ac_AR) * x
       + (env_g (env self) * mass (ac self)) ^ 2
         / (0.5 * env_getRho (env self) 0 * IZR v ^ 2 * (ac_b ^ 2 / ac_AR)
            * PI * ac_e * ac_AR)).
  { unfold Drag_of, cD_of, cL_formula, s_speed, s_config. simpl.
    rewrite Hx. simpl default. unfold ac_b, ac_AR, ac_e in *. field.
    repeat split; lra. }
  split; [exact Hx |]. split; [apply HD |]. split; [exact Hform |].
  split; [| exact HD].
  rewrite Hform. apply Rplus_lt_le_0_compat.
  - apply Rmult_lt_0_compat; assumption.
  - apply Rmult_le_pos; [apply pow2_ge_0 |]. left. apply Rinv_0_lt_compat.
    apply Rmult_lt_0_compat; [| unfold ac_AR; lra].
    apply Rmult_lt_0_compat; [| unfold ac_e; lra].
    apply Rmult_lt_0_compat; [exact Hq | exact Hpi].
Qed.

Lemma getD_decomposition_witness :
  exists D, getD b737 atmosphere initState = Ok D /\ 0 < D.
Proof.
  destruct (getD_decomposition mdp737 11000 105 0 250000)
    as (x & D & _ & HD & _ & Hpos & _).
  - intros h. apply ISA_getRho_pos.
  - lia.
  - lia.
  - exists D. split; [exact HD | exact Hpos].
Defined.

(** ** The cost of the actions *)

Lemma fuel_of_energy_le (self : ApproachMDP) (E1 E2 floor : R) :
  0 < eta (ac self) -> 0 < kFuel self -> E1 <= E2 ->
  Rmax (E1 / eta (ac self) / kFuel self) floor
  <= Rmax (E2 / eta (ac self) / kFuel self) floor.
Proof.
  intros Heta Hk HE. apply Rle_max_compat_r.
  apply Rmult_le_compat_r; [left; apply Rinv_0_lt_compat; exact Hk |].
  apply Rmult_le_compat_r; [left; apply Rinv_0_lt_compat; exact Heta |].
  exact HE.
Qed.

(** X4: how the actions compare in cost.  The flap actions and a missing
    action cost exactly what level flight costs (no maneuver cost is
    charged); with nonnegative mass, gravity and steps, descending costs at
    most that, and climbing or accelerating at least that. *)
Theorem getCost_action_order (self : ApproachMDP) (state : State) :
  (forall h, 0 < env_getRho (env self) h) ->
  0 < eta (ac self) -> 0 < kFuel self ->
  0 <= mass (ac self) -> 0 <= env_g (env self) ->
  (0 <= dA self)%Z -> (0 <= dS self)%Z ->
  (0 < s_speed state)%Z ->
  (0 <= s_config state < 5)%Z ->
  exists cDescend cLevel cClimb cAccel,
    getCost self state (Some descend) = Ok cDescend
    /\ getCost self state (Some level) = Ok cLevel
    /\ getCost self state (Some climb) = Ok cClimb
    /\ getCost self state (Some accel) = Ok cAccel
    /\ getCost self state (Some extend) = Ok cLevel
    /\ getCost self state (Some retract) = Ok cLevel
    /\ getCost self state None = Ok cLevel
    /\ cDescend <= cLevel /\ cLevel <= cClimb /\ cLevel <= cAccel.
Proof.
  intros Hrho Heta Hk Hm Hg HdA HdS Hv Hc.
  assert (Heta' : eta (ac self) <> 0) by lra.
  assert (Hk' : kFuel self <> 0) by lra.
  pose proof (TAS_of_pos self Hrho state Hv) as HT.
  assert (HA : 0 <= IZR (dA self)) by (apply IZR_le; exact HdA).
  assert (HS : 0 <= IZR (dS self)) by (apply IZR_le; exact HdS).
  assert (Hmg : 0 <= mass (ac self) * env_g (env self))
    by (apply Rmult_le_pos; assumption).
  pose proof (Rmult_le_pos _ _ Hmg HA) as HmgA.
  assert (HmS : 0 <= mass (ac self)
                     * (IZR (dS self) * (2 * TAS_of self state + IZR (dS self)))).
  { apply Rmult_le_pos; [exact Hm |]. apply Rmult_le_pos; lra. }
  do 4 eexists.
  do 4 (split; [apply (getCost_ok self Hrho Heta' Hk'); assumption |]).
  split; [exact (getCost_ok self Hrho Heta' Hk' state (Some extend) Hv Hc) |].
  split; [exact (getCost_ok self Hrho Heta' Hk' state (Some retract) Hv Hc) |].
  split; [exact (getCost_ok self Hrho Heta' Hk' state None Hv Hc) |].
  repeat split; apply fuel_of_energy_le; try assumption;
    unfold Ereq_of, altAfter_of, TASafter_of;
    rewrite ?minus_IZR, ?plus_IZR; nra.
Qed.

Lemma getCost_action_order_witness :
  exists cDescend cClimb,
    getCost mdp737 initState (Some descend) = Ok cDescend
    /\ getCost mdp737 initState (Some climb) = Ok cClimb
    /\ cDescend <= cClimb.
Proof.
  destruct (getCost_action_order mdp737 initState)
    as (cd & cl & cc & ca & Hd & _ & Hc & _ & _ & _ & _ & H1 & H2 & _).
  - intros h. apply ISA_getRho_pos.
  - simpl. lra.
  - rewrite mdp737_kFuel. lra.
  - simpl. lra.
  - simpl. unfold ISA.g. lra.
  - simpl. lia.
  - simpl. lia.
  - unfold initState, s_speed. simpl. lia.
  - unfold initState, s_config. simpl. lia.
  - exists cd, cc. split; [exact Hd | split; [exact Hc | lra]].
Defined.

(** ** The list of legal actions *)

(** X5: the list [actions] returns starts with [climb] and [level], names
    no action twice and so has between two and seven entries. *)
Theorem actions_shape (self : ApproachMDP) (state : State)
    (l : list action) :
  actions self state = Ok l ->
  (exists rest, l = climb :: level :: rest)
  /\ NoDup l
  /\ (2 <= length l <= 7)%nat.
Proof.
  destruct state as [[[a v] c] d]. intros H.
  unfold actions, getDescend, getDecel in H.
  split_actions H; injection H as <-;
    (split; [eexists; reflexivity |]);
    (split; [| simpl; lia]);
    repeat (apply NoDup_cons_2;
            [rewrite ?elem_of_cons, elem_of_nil; intuition discriminate |]);
    apply NoDup_nil_2.
Qed.

Lemma actions_shape_witness :
  NoDup [climb; level; extend; descend; decel; accel].
Proof.
  apply (actions_shape mdp737 initState). reflexivity.
Defined.

(** X6: a legal speed change stays inside the speed range of the
    configuration: if [decel] is in the list, the speed after it is at least
    [minSpeed[config]]; if [accel] is, the speed after it is at most
    [maxSpeed[config]]; a legal [extend] or [retract] has the speed within
    the bound it tests of the new configuration. *)
Theorem legal_actions_respect_speed_limits (self : ApproachMDP)
    (a v c d : Z) (l : list action) :
  actions self (a, v, c, d) = Ok l ->
  (In decel l ->
   exists lo, pyindex (minSpeed (ac self)) c = Ok lo
              /\ (lo <= s_speed (primary self (a, v, c, d) (Some decel)))%Z)
  /\ (In accel l ->
      exists hi, pyindex (maxSpeed (ac self)) c = Ok hi
                 /\ (s_speed (primary self (a, v, c, d) (Some accel)) <= hi)%Z)
  /\ (In extend l ->
      exists hi,
        pyindex (maxSpeed (ac self))
                (s_config (primary self (a, v, c, d) (Some extend))) = Ok hi
        /\ (s_speed (primary self (a, v, c, d) (Some extend)) <= hi)%Z)
  /\ (In retract l ->
      exists lo,
        pyindex (minSpeed (ac self))
                (s_config (primary self (a, v, c, d) (Some retract))) = Ok lo
        /\ (lo <= s_speed (primary self (a, v, c, d) (Some retract)))%Z).
Proof.
  intros H. unfold actions, getDescend, getDecel in H.
  unfold primary, s_speed, s_config. simpl.
  split_actions H; injection H as <-; bool_to_prop;
    repeat split; intros Hin; simpl in Hin;
    try (exfalso; intuition discriminate);
    eexists; (split; [reflexivity | lia]).
Qed.

Lemma legal_actions_respect_speed_limits_witness :
  exists lo, pyindex (minSpeed b737) 0 = Ok lo
             /\ (lo <= s_speed (primary mdp737 initState (Some decel)))%Z.
Proof.
  destruct (legal_actions_respect_speed_limits mdp737 11000 105 0 250000
              [climb; level; extend; descend; decel; accel]) as [H _].
  - reflexivity.
  - apply H. simpl. tauto.
Defined.

(** X7: a legal [descend] does not go below the ground by more than its
    jitter: when [descend] is in the list and there is distance left, every
    outcome of [descend] has an altitude above -1 (the test is [alt > dA]
    and the jitter is 1) and the primary one a positive altitude. *)
Theorem legal_descend_stays_above_ground (self : ApproachMDP)
    (state : State) (l : list action) (outs : list outcome) :
  actions self state = Ok l ->
  In descend l ->
  (0 < s_dist state)%Z ->
  succAndProbReward self state (Some descend) = Ok outs ->
  Forall (fun o => (-1 < s_alt (o_state o))%Z) outs
  /\ (0 < s_alt (primary self state (Some descend)))%Z.
Proof.
  intros Hact Hin Hd Hs.
  assert (Halt : (dA self < s_alt state)%Z).
  { destruct state as [[[a v] c] d].
    unfold actions, getDescend, getDecel in Hact.
    split_actions Hact; injection Hact as <-; bool_to_prop;
      simpl in Hin; unfold s_alt; simpl;
      try lia; exfalso; intuition discriminate. }
  pose proof (positive_not_terminal self state Hd) as Hnt.
  destruct state as [[[a v] c] d]. unfold s_dist in Hd. simpl in Hd.
  unfold s_alt in Halt. simpl in Halt.
  unfold succAndProbReward in Hs. case_decide; [contradiction |].
  unfold s_dist in Hs. simpl snd in Hs.
  destruct (Z.leb_spec d 0) as [L | _]; [lia |].
  apply bind_Ok in Hs as (cost & _ & Hs). injection Hs as <-.
  unfold getDescend, primary, s_alt, o_state. simpl.
  split; [repeat constructor; simpl; lia | lia].
Qed.

Lemma legal_descend_stays_above_ground_witness :
  exists outs,
    succAndProbReward mdp737 initState (Some descend) = Ok outs
    /\ Forall (fun o => (-1 < s_alt (o_state o))%Z) outs.
Proof.
  assert (Hd : (0 < s_dist initState)%Z) by (unfold initState, s_dist; simpl; lia).
  destruct (mdp737_getCost initState (Some descend)) as [cost Hc];
    [unfold initState, s_speed; simpl; lia
    | unfold initState, s_config; simpl; lia |].
  destruct (succAndProbReward_returns mdp737 initState (Some descend) cost Hd Hc)
    as [outs Ho].
  exists outs. split; [exact Ho |].
  apply (legal_descend_stays_above_ground mdp737 initState
           [climb; level; extend; descend; decel; accel] outs);
    [reflexivity | simpl; tauto | exact Hd | exact Ho].
Defined.

(** X8: [climb] lowers the altitude: with distance left, its primary
    successor is the state [dA] lower, the same state as the primary
    successor of [descend], and every outcome of [climb] is at most
    [10 - dA] above the start altitude. *)
Theorem climb_lowers_altitude (self : ApproachMDP) (state : State)
    (outs : list outcome) :
  (0 < s_dist state)%Z ->
  succAndProbReward self state (Some climb) = Ok outs ->
  (exists o, first_outcome outs = Ok o
             /\ s_alt (o_state o) = (s_alt state - dA self)%Z
             /\ o_state o = primary self state (Some descend))
  /\ Forall (fun o => (s_alt (o_state o) <= s_alt state - dA self + 10)%Z) outs.
Proof.
  intros Hd Hs.
  pose proof (positive_not_terminal self state Hd) as Hnt.
  destruct state as [[[a v] c] d]. unfold s_dist in Hd. simpl in Hd.
  unfold succAndProbReward in Hs. case_decide; [contradiction |].
  unfold s_dist in Hs. simpl snd in Hs.
  destruct (Z.leb_spec d 0) as [L | _]; [lia |].
  apply bind_Ok in Hs as (cost & _ & Hs). injection Hs as <-.
  split.
  - eexists. split; [reflexivity |]. split; reflexivity.
  - unfold s_alt, o_state. repeat constructor; simpl; lia.
Qed.

Lemma climb_lowers_altitude_witness :
  exists outs o,
    succAndProbReward mdp737 initState (Some climb) = Ok outs
    /\ first_outcome outs = Ok o
    /\ s_alt (o_state o) = 10950%Z.
Proof.
  assert (Hd : (0 < s_dist initState)%Z) by (unfold initState, s_dist; simpl; lia).
  destruct (mdp737_getCost initState (Some climb)) as [cost Hc];
    [unfold initState, s_speed; simpl; lia
    | unfold initState, s_config; simpl; lia |].
  destruct (succAndProbReward_returns mdp737 initState (Some climb) cost Hd Hc)
    as [outs Ho].
  destruct (climb_lowers_altitude mdp737 initState outs Hd Ho)
    as [(o & Hf & Ha & _) _].
  exists outs, o. split; [exact Ho |]. split; [exact Hf | exact Ha].
Defined.

(** ** The outcomes of a flown step *)

(** The flying branch of [succAndProbReward], opened up. *)
Lemma succAndProbReward_cases (self : ApproachMDP) (a v c d : Z)
    (action0 : option action) (outs : list outcome) :
  (0 < d)%Z ->
  succAndProbReward self (a, v, c, d) action0 = Ok outs ->
  exists r,
    let d' := (d - dD self)%Z in
    match action0 with
    | Some climb | Some descend =>
        exists j, outs = [((a - dA self)%Z, v, c, d', 0.8, r);
                          ((a - dA self + j)%Z, v, c, d', 0.1, r);
                          ((a - dA self - j)%Z, v, c, d', 0.1, r)]
    | Some extend =>
        outs = [(a, v, (c + 1)%Z, d', 0.95, r); (a, v, c, d', 0.05, r)]
    | Some retract =>
        outs = [(a, v, (c - 1)%Z, d', 0.95, r); (a, v, c, d', 0.05, r)]
    | Some accel =>
        outs = [(a, (v + dS self)%Z, c, d', 0.8, r);
                (a, (v + dS self + 1)%Z, c, d', 0.1, r);
                (a, (v + dS self - 1)%Z, c, d', 0.1, r)]
    | Some decel =>
        outs = [(a, (v - dS self)%Z, c, d', 0.8, r);
                (a, (v - dS self + 1)%Z, c, d', 0.1, r);
                (a, (v - dS self - 1)%Z, c, d', 0.1, r)]
    | _ => outs = [(a, v, c, d', 1, r)]
    end.
Proof.
  intros Hd H.
  assert (Hnt : (a, v, c, d) <> terminalState self)
    by (apply positive_not_terminal; exact Hd).
  unfold succAndProbReward in H. case_decide; [contradiction |].
  unfold s_dist in H. simpl snd in H.
  destruct (Z.leb_spec d 0) as [L | _]; [lia |].
  apply bind_Ok in H as (cost & _ & H). exists (- cost).
  destruct action0 as [[] |]; injection H as <-;
    try reflexivity; eexists; reflexivity.
Qed.

Ltac open_jitter H :=
  try match type of H with
      | exists _, _ => destruct H as [? H]
      end.

(** X9: the list of a flown step has one to three outcomes, every
    probability is positive and at most 1, and the first outcome, the one the
    rollout takes, is strictly more likely than each of the others. *)
Theorem first_outcome_is_modal (self : ApproachMDP) (state : State)
    (action0 : option action) (outs : list outcome) :
  (0 < s_dist state)%Z ->
  succAndProbReward self state action0 = Ok outs ->
  exists o rest,
    outs = o :: rest
    /\ Forall (fun o' => o_prob o' < o_prob o) rest
    /\ Forall (fun o' => 0 < o_prob o' <= 1) outs
    /\ (length outs <= 3)%nat.
Proof.
  destruct state as [[[a v] c] d]. unfold s_dist. simpl. intros Hd H.
  destruct (succAndProbReward_cases self a v c d action0 outs Hd H) as [r Hr].
  simpl in Hr.
  destruct action0 as [[] |]; open_jitter Hr; subst outs;
    eexists; eexists; (split; [reflexivity |]);
    unfold o_prob; simpl;
    (split; [repeat constructor; simpl; lra |]);
    (split; [repeat constructor; simpl; lra | lia]).
Qed.

Lemma first_outcome_is_modal_witness :
  exists outs o rest,
    succAndProbReward mdp737 initState (Some extend) = Ok outs
    /\ outs = o :: rest
    /\ Forall (fun o' => o_prob o' < o_prob o) rest.
Proof.
  assert (Hd : (0 < s_dist initState)%Z) by (unfold initState, s_dist; simpl; lia).
  destruct (mdp737_getCost initState (Some extend)) as [cost Hc];
    [unfold initState, s_speed; simpl; lia
    | unfold initState, s_config; simpl; lia |].
  destruct (succAndProbReward_returns mdp737 initState (Some extend) cost Hd Hc)
    as [outs Ho].
  destruct (first_outcome_is_modal mdp737 initState (Some extend) outs Hd Ho)
    as (o & rest & He & Hm & _).
  exists outs, o, rest. split; [exact Ho | split; [exact He | exact Hm]].
Defined.

(** X10: a flown step changes at most one of altitude, speed and
    configuration: in every outcome two of the three are those of the state,
    and the configuration moves by at most one. *)
Theorem outcome_changes_one_component (self : ApproachMDP) (state : State)
    (action0 : option action) (outs : list outcome) :
  (0 < s_dist state)%Z ->
  succAndProbReward self state action0 = Ok outs ->
  Forall (fun o =>
            let s' := o_state o in
            (Z.abs (s_config s' - s_config state) <= 1)%Z
            /\ ((s_speed s' = s_speed state /\ s_config s' = s_config state)
                \/ (s_alt s' = s_alt state /\ s_config s' = s_config state)
                \/ (s_alt s' = s_alt state /\ s_speed s' = s_speed state)))
         outs.
Proof.
  destruct state as [[[a v] c] d]. unfold s_dist. simpl. intros Hd H.
  destruct (succAndProbReward_cases self a v c d action0 outs Hd H) as [r Hr].
  simpl in Hr.
  destruct action0 as [[] |]; open_jitter Hr; subst outs;
    unfold o_state, s_alt, s_speed, s_config;
    repeat match goal with
           | |- Forall _ (_ :: _) => constructor
           | |- Forall _ [] => constructor
           end;
    simpl; (split; [lia |]);
    first [left; split; lia | right; left; split; lia | right; right; split; lia].
Qed.

Lemma outcome_changes_one_component_witness :
  exists outs,
    succAndProbReward mdp737 initState (Some decel) = Ok outs
    /\ Forall (fun o => (Z.abs (s_config (o_state o) - 0) <= 1)%Z) outs.
Proof.
  assert (Hd : (0 < s_dist initState)%Z) by (unfold initState, s_dist; simpl; lia).
  destruct (mdp737_getCost initState (Some decel)) as [cost Hc];
    [unfold initState, s_speed; simpl; lia
    | unfold initState, s_config; simpl; lia |].
  destruct (succAndProbReward_returns mdp737 initState (Some decel) cost Hd Hc)
    as [outs Ho].
  exists outs. split; [exact Ho |].
  pose proof (outcome_changes_one_component mdp737 initState (Some decel) outs Hd Ho)
    as Hall.
  eapply Forall_impl; [exact Hall |].
  intros o [Hcfg _]. exact Hcfg.
Defined.

(** ** Overshooting the FAF *)

(** X11: the overshoot penalty is zero exactly when altitude, speed and
    configuration are those of the FAF, and never negative; it is at least
    [10^8] whenever the configuration differs, and at least [10^11] times the
    squared mismatch of altitude and speed. *)
Theorem overshootCost_zero_or_large (self : ApproachMDP) (state : State) :
  (overshootCost self state = 0%Z
   <-> (s_alt state, s_speed state, s_config state) = FAFstate self)
  /\ (0 <= overshootCost self state)%Z
  /\ (let '(fa, fv, fc) := FAFstate self in
      (s_config state <> fc -> 100000000 <= overshootCost self state)
      /\ 100000000000 * ((s_alt state - fa) ^ 2 + (s_speed state - fv) ^ 2)
         <= overshootCost self state)%Z.
Proof.
  rewrite overshootCost_formula.
  destruct (FAFstate self) as [[fa fv] fc].
  split; [| split; [| split]].
  - split.
    + intros H.
      assert (s_alt state = fa /\ s_speed state = fv /\ s_config state = fc)
        as (-> & -> & ->) by nia.
      reflexivity.
    + intros [= -> -> ->]. rewrite !Z.sub_diag. reflexivity.
  - nia.
  - intros Hc. nia.
  - nia.
Qed.

(** X12: at a distance of zero or less the transition never raises, whatever
    the speed and the configuration: it returns at most one outcome, and
    from the state of that outcome there is no transition any more. *)
Theorem overshoot_is_absorbed (self : ApproachMDP) (state : State)
    (action0 : option action) :
  (s_dist state <= 0)%Z ->
  exists outs,
    succAndProbReward self state action0 = Ok outs
    /\ (length outs <= 1)%nat
    /\ Forall (fun o =>
                 forall action1,
                   succAndProbReward self (o_state o) action1 = Ok [])
              outs.
Proof.
  intros Hd.
  assert (Hterm : forall action1,
             succAndProbReward self (terminalState self) action1 = Ok []).
  { intros action1. unfold succAndProbReward.
    destruct (terminalState self) as [[[a v] c] d].
    case_decide; [reflexivity | contradiction]. }
  destruct (decide (state = terminalState self)) as [-> | N].
  - exists []. split; [apply Hterm |]. split; [simpl; lia | constructor].
  - destruct state as [[[a v] c] d]. unfold succAndProbReward.
    case_decide; [contradiction |].
    apply Z.leb_le in Hd. rewrite Hd.
    eexists. split; [reflexivity |]. split; [simpl; lia |].
    constructor; [exact Hterm | constructor].
Qed.

Lemma overshoot_is_absorbed_witness :
  exists outs,
    succAndProbReward mdp737 (900, 0, 7, -250)%Z (Some accel) = Ok outs
    /\ (length outs <= 1)%nat.
Proof.
  destruct (overshoot_is_absorbed mdp737 (900, 0, 7, -250)%Z (Some accel))
    as (outs & H & Hl & _).
  - unfold s_dist. simpl. lia.
  - exists outs. split; [exact H | exact Hl].
Defined.

(** ** Accounting along the rollout *)

(** The cost of the step the rollout takes at a state; 0 where [getCost]
    raises, which ends the rollout. *)
Definition step_cost (mdpInstance : ApproachMDP) (pi : gmap State action)
    (state : State) : R :=
  match getCost mdpInstance state (pi !! state) with
  | Ok cost => cost
  | Raise _ => 0
  end.

(** Python's [sum] over a list of floats. *)
Definition pysum_float (l : list R) : R := fold_right Rplus 0 l.

(** The lists are filled in step: the altitude and distance list of every
    trace are equally long, and so are [EAS], [TAS] and [velDist]. *)
Definition well_paired (t : traces) : Prop :=
  length (alt t) = length (dist t)
  /\ length (altDec t) = length (distDec t)
  /\ length (altAcc t) = length (distAcc t)
  /\ length (retractionA t) = length (retractionD t)
  /\ length (extensionA t) = length (extensionD t)
  /\ length (EAS t) = length (TAS t)
  /\ length (EAS t) = length (velDist t).

Section AccountingFacts.
Variable mdpInstance : ApproachMDP.
Variable pi : gmap State action.

Lemma body_fuel (lv lv' : loopvars) :
  (0 < s_dist (lv_state lv))%Z ->
  body mdpInstance pi lv = Ok lv' ->
  fuelUsed (lv_traces lv')
  = fuelUsed (lv_traces lv) + step_cost mdpInstance pi (lv_state lv).
Proof.
  intros Hd H. unfold body in H.
  apply bind_Ok in H as (tas & _ & H).
  apply bind_Ok in H as (l & Hl & H).
  apply bind_Ok in H as ([[s' p] r] & Ho & H). injection H as <-.
  apply succAndProbReward_flown in Hl; [| exact Hd].
  destruct Hl as (cost & Hc & _ & Hr & _).
  apply first_outcome_In in Ho. rewrite Forall_forall in Hr.
  apply list_elem_of_In in Ho. apply Hr in Ho. unfold o_reward in Ho.
  simpl in Ho. subst r.
  unfold step_cost. rewrite Hc. simpl.
  destruct (decide (lv_action lv = pi !! lv_state lv));
    destruct (lv_action lv) as [[] |]; destruct (pi !! lv_state lv) as [[] |];
    simpl; ring.
Qed.

Lemma body_velDist (lv lv' : loopvars) :
  body mdpInstance pi lv = Ok lv' ->
  velDist (lv_traces lv') = velDist (lv_traces lv) ++ [km (lv_state lv)]
  /\ EAS (lv_traces lv') = EAS (lv_traces lv) ++ [s_speed (lv_state lv)].
Proof.
  intros H. unfold body in H.
  apply bind_Ok in H as (tas & _ & H).
  apply bind_Ok in H as (l & _ & H).
  apply bind_Ok in H as ([[s' p] r] & _ & H). injection H as <-.
  destruct (decide (lv_action lv = pi !! lv_state lv));
    destruct (lv_action lv) as [[] |]; destruct (pi !! lv_state lv) as [[] |];
    split; reflexivity.
Qed.

Lemma body_well_paired (lv lv' : loopvars) :
  body mdpInstance pi lv = Ok lv' ->
  well_paired (lv_traces lv) -> well_paired (lv_traces lv').
Proof.
  intros H (H1 & H2 & H3 & H4 & H5 & H6 & H7). unfold body in H.
  apply bind_Ok in H as (tas & _ & H).
  apply bind_Ok in H as (l & _ & H).
  apply bind_Ok in H as ([[s' p] r] & _ & H). injection H as <-.
  unfold well_paired.
  destruct (decide (lv_action lv = pi !! lv_state lv));
    destruct (lv_action lv) as [[] |]; destruct (pi !! lv_state lv) as [[] |];
    simpl; rewrite ?length_app; simpl; repeat split; lia.
Qed.

Lemma lastState_well_paired (lv lv' : loopvars) :
  lastState mdpInstance lv = Ok lv' ->
  well_paired (lv_traces lv) -> well_paired (lv_traces lv').
Proof.
  intros H (H1 & H2 & H3 & H4 & H5 & H6 & H7). unfold lastState in H.
  apply bind_Ok in H as (tas & _ & H). injection H as <-.
  unfold well_paired.
  destruct (lv_action lv) as [[] |];
    simpl; rewrite ?length_app; simpl; repeat split; lia.
Qed.

Lemma loop_well_paired (fuel : nat) (lv lv' : loopvars) :
  loop mdpInstance pi fuel lv = Some (Ok lv') ->
  well_paired (lv_traces lv) -> well_paired (lv_traces lv').
Proof.
  revert lv. induction fuel as [| fuel IH]; intros lv H Hp; simpl in H.
  - destruct (0 <? s_dist (lv_state lv))%Z; [discriminate H |].
    injection H as <-. exact Hp.
  - destruct (0 <? s_dist (lv_state lv))%Z.
    + destruct (body mdpInstance pi lv) as [lv1 | e] eqn:Eb; [| discriminate H].
      apply (IH lv1 H). apply (body_well_paired lv lv1 Eb Hp).
    + injection H as <-. exact Hp.
Qed.

Lemma loop_fuel_sum (fuel : nat) (lv lv' : loopvars) :
  loop mdpInstance pi fuel lv = Some (Ok lv') ->
  fuelUsed (lv_traces lv')
  = fuelUsed (lv_traces lv)
    + pysum_float (map (step_cost mdpInstance pi)
                       (calls mdpInstance pi fuel lv)).
Proof.
  revert lv. induction fuel as [| fuel IH]; intros lv H; simpl in H; simpl calls.
  - destruct (0 <? s_dist (lv_state lv))%Z; [discriminate H |].
    injection H as <-. simpl. ring.
  - destruct (Z.ltb_spec 0 (s_dist (lv_state lv))) as [Hd | _].
    + destruct (body mdpInstance pi lv) as [lv1 | e] eqn:Eb; [| discriminate H].
      assert (Ht : exists tas, recordedTAS mdpInstance (lv_state lv) = Ok tas).
      { unfold body in Eb. apply bind_Ok in Eb as (tas & Ht & _).
        exists tas. exact Ht. }
      destruct Ht as [tas ->]. simpl.
      rewrite (IH lv1 H), (body_fuel lv lv1 Hd Eb). ring.
    + injection H as <-. simpl. ring.
Qed.

Lemma loop_landing (fuel : nat) (lv lv' : loopvars) :
  (0 < dD mdpInstance)%Z ->
  loop mdpInstance pi fuel lv = Some (Ok lv') ->
  let n := Z.to_nat (ceil_div (s_dist (lv_state lv)) (dD mdpInstance)) in
  s_dist (lv_state lv')
  = (s_dist (lv_state lv) - Z.of_nat n * dD mdpInstance)%Z
  /\ length (velDist (lv_traces lv')) = (length (velDist (lv_traces lv)) + n)%nat.
Proof.
  intros HdD. revert lv.
  assert (Hstop : forall d, (d <= 0)%Z -> Z.to_nat (ceil_div d (dD mdpInstance)) = 0%nat).
  { intros d Hd. unfold ceil_div.
    assert ((d + dD mdpInstance - 1) / dD mdpInstance <= 0)%Z; [| lia].
    apply Z.lt_succ_r. apply Z.div_lt_upper_bound; lia. }
  induction fuel as [| fuel IH]; intros lv H; simpl in H.
  - destruct (Z.ltb_spec 0 (s_dist (lv_state lv))) as [Hd | Hd]; [discriminate H |].
    injection H as <-. rewrite (Hstop _ Hd). simpl. split; lia.
  - destruct (Z.ltb_spec 0 (s_dist (lv_state lv))) as [Hd | Hd].
    + destruct (body mdpInstance pi lv) as [lv1 | e] eqn:Eb; [| discriminate H].
      destruct (IH lv1 H) as [Hs Hl].
      pose proof (body_dist mdpInstance pi lv lv1 Hd Eb) as Hd1.
      destruct (body_velDist lv lv1 Eb) as [Hv _].
      rewrite Hd1 in Hs, Hl.
      assert (Hc : ceil_div (s_dist (lv_state lv)) (dD mdpInstance)
                   = (ceil_div (s_dist (lv_state lv) - dD mdpInstance)
                               (dD mdpInstance) + 1)%Z).
      { unfold ceil_div.
        replace (s_dist (lv_state lv) + dD mdpInstance - 1)%Z
          with (s_dist (lv_state lv) - dD mdpInstance + dD mdpInstance - 1
                + 1 * dD mdpInstance)%Z by ring.
        rewrite Z.div_add by lia. reflexivity. }
      assert (Hq : (0 <= ceil_div (s_dist (lv_state lv) - dD mdpInstance)
                                  (dD mdpInstance))%Z).
      { unfold ceil_div. apply Z.div_pos; lia. }
      simpl. rewrite Hc. rewrite Z2Nat.inj_add by lia.
      rewrite Hs, Hl, Hv, length_app. simpl. split; lia.
    + injection H as <-. rewrite (Hstop _ Hd). simpl. split; lia.
Qed.
End AccountingFacts.

Section RolloutResult.
Variable mdpInstance : ApproachMDP.
Variable pi : gmap State action.

(** The loop variables at the entry of the loop. *)
Definition loop_entry (state : State) : loopvars :=
  {| lv_state := state; lv_action := pi !! state; lv_traces := traces_init |}.

Lemma plotTrajectory_Ok (fuel : nat) (state : State) (lv : loopvars) :
  plotTrajectory mdpInstance pi fuel state = Some (Ok (Some lv)) ->
  exists s0 lv1,
    initialState pi fuel state = Some (Some s0)
    /\ loop mdpInstance pi fuel (loop_entry s0) = Some (Ok lv1)
    /\ lastState mdpInstance lv1 = Ok lv.
Proof.
  unfold plotTrajectory. intros H.
  destruct (initialState pi fuel state) as [[s0 |] |]; try discriminate H.
  fold (loop_entry s0) in H.
  destruct (loop mdpInstance pi fuel (loop_entry s0)) as [[lv1 | e] |] eqn:Eloop;
    try discriminate H.
  destruct (lastState mdpInstance lv1) as [lv2 | e] eqn:El; [| discriminate H].
  injection H as <-. exists s0, lv1.
  split; [reflexivity |]. split; [exact Eloop | exact El].
Qed.

Lemma lastState_keeps (lv lv' : loopvars) :
  lastState mdpInstance lv = Ok lv' ->
  lv_state lv' = lv_state lv
  /\ fuelUsed (lv_traces lv') = fuelUsed (lv_traces lv)
  /\ length (velDist (lv_traces lv')) = S (length (velDist (lv_traces lv))).
Proof.
  intros H. unfold lastState in H.
  apply bind_Ok in H as (tas & _ & H). injection H as <-.
  destruct (lv_action lv) as [[] |]; simpl; rewrite length_app; simpl;
    repeat split; lia.
Qed.

Lemma traces_init_well_paired : well_paired traces_init.
Proof. unfold well_paired. simpl. repeat split; reflexivity. Qed.
End RolloutResult.

(** X13: the fuel a finished rollout reports is the sum of the costs
    [getCost(state, policy action)] of the states at which it took a step,
    each counted once, starting from 0. *)
Theorem rollout_fuel_is_sum_of_costs (mdpInstance : ApproachMDP)
    (pi : gmap State action) (fuel : nat) (state : State) (lv : loopvars) :
  plotTrajectory mdpInstance pi fuel state = Some (Ok (Some lv)) ->
  exists s0,
    initialState pi fuel state = Some (Some s0)
    /\ fuelUsed (lv_traces lv)
       = pysum_float
           (map (step_cost mdpInstance pi)
                (calls mdpInstance pi fuel (loop_entry pi s0)))
    /\ Forall (fun s => exists cost,
                 getCost mdpInstance s (pi !! s) = Ok cost
                 /\ step_cost mdpInstance pi s = cost)
              (calls mdpInstance pi fuel (loop_entry pi s0)).
Proof.
  intros H.
  destruct (plotTrajectory_Ok mdpInstance pi fuel state lv H)
    as (s0 & lv1 & Hi & Hl & Hlast).
  exists s0. split; [exact Hi |].
  destruct (lastState_keeps mdpInstance lv1 lv Hlast) as (_ & Hf & _).
  split.
  - rewrite Hf, (loop_fuel_sum mdpInstance pi fuel _ lv1 Hl). simpl. ring.
  - clear Hi Hlast Hf H. revert Hl. generalize (loop_entry pi s0). clear s0.
    induction fuel as [| fuel IH]; intros lv0 Hl; simpl in Hl; simpl calls.
    + destruct (0 <? s_dist (lv_state lv0))%Z; constructor.
    + destruct (Z.ltb_spec 0 (s_dist (lv_state lv0))) as [Hd | _]; [| constructor].
      destruct (body mdpInstance pi lv0) as [lv2 | e] eqn:Eb; [| discriminate Hl].
      destruct (body_Ok mdpInstance pi lv0 lv2 Hd Eb) as (l & o & _ & Hfl & _).
      destruct Hfl as (cost & Hc & _).
      assert (Ht : exists tas, recordedTAS mdpInstance (lv_state lv0) = Ok tas).
      { unfold body in Eb. apply bind_Ok in Eb as (tas & Ht & _).
        exists tas. exact Ht. }
      destruct Ht as [tas ->]. constructor.
      * exists cost. split; [exact Hc |]. unfold step_cost. rewrite Hc. reflexivity.
      * apply (IH lv2 Hl).
Qed.

(** X14: in a finished rollout the lists handed to the plotting calls
    match in length: the altitude and distance list of each of the five
    traces, and [EAS], [TAS] and [velDist]. *)
Theorem rollout_traces_well_paired (mdpInstance : ApproachMDP)
    (pi : gmap State action) (fuel : nat) (state : State) (lv : loopvars) :
  plotTrajectory mdpInstance pi fuel state = Some (Ok (Some lv)) ->
  well_paired (lv_traces lv).
Proof.
  intros H.
  destruct (plotTrajectory_Ok mdpInstance pi fuel state lv H)
    as (s0 & lv1 & _ & Hl & Hlast).
  apply (lastState_well_paired mdpInstance lv1 lv Hlast).
  apply (loop_well_paired mdpInstance pi fuel _ lv1 Hl).
  apply traces_init_well_paired.
Qed.

(** X15: with a positive step distance a finished rollout from a resolved
    start at distance [d] has taken [n = ceiling(d / dD)] steps (none for
    [d <= 0]): it ends at distance [d - n * dD], which for [d > 0] lies in
    [(-dD, 0]] and is 0 when [dD] divides [d], and its velocity profile has
    [n + 1] samples. *)
Theorem rollout_lands (mdpInstance : ApproachMDP)
    (pi : gmap State action) (fuel : nat) (state : State) (lv : loopvars) :
  (0 < dD mdpInstance)%Z ->
  plotTrajectory mdpInstance pi fuel state = Some (Ok (Some lv)) ->
  exists s0,
    initialState pi fuel state = Some (Some s0)
    /\ let n := Z.to_nat (ceil_div (s_dist s0) (dD mdpInstance)) in
       s_dist (lv_state lv) = (s_dist s0 - Z.of_nat n * dD mdpInstance)%Z
       /\ length (velDist (lv_traces lv)) = S n
       /\ ((0 < s_dist s0)%Z ->
           (- dD mdpInstance < s_dist (lv_state lv) <= 0)%Z)
       /\ ((0 <= s_dist s0)%Z ->
           (s_dist s0 mod dD mdpInstance = 0)%Z ->
           s_dist (lv_state lv) = 0%Z).
Proof.
  intros HdD H.
  destruct (plotTrajectory_Ok mdpInstance pi fuel state lv H)
    as (s0 & lv1 & Hi & Hl & Hlast).
  exists s0. split; [exact Hi |].
  destruct (lastState_keeps mdpInstance lv1 lv Hlast) as (Hs & _ & Hv).
  destruct (loop_landing mdpInstance pi fuel _ lv1 HdD Hl) as [Hd Hn].
  simpl in Hd, Hn. rewrite Hs, Hv, Hn, Hd.
  set (d := s_dist s0) in *. set (step := dD mdpInstance) in *.
  assert (Hq : Z.of_nat (Z.to_nat (ceil_div d step))
               = Z.max 0 (ceil_div d step)) by lia.
  unfold ceil_div in *.
  pose proof (Z.div_mod (d + step - 1) step ltac:(lia)) as Hdm.
  pose proof (Z.mod_pos_bound (d + step - 1) step HdD) as Hb.
  split; [reflexivity |]. split; [reflexivity |]. split.
  - intros Hpos. rewrite Hq.
    assert (0 <= (d + step - 1) / step)%Z by (apply Z.div_pos; lia).
    nia.
  - intros Hnn Hmod. rewrite Hq.
    assert (0 <= (d + step - 1) / step)%Z by (apply Z.div_pos; lia).
    apply Z.mod_divide in Hmod; [| lia]. destruct Hmod as [k Hk].
    assert (Hdiv : ((d + step - 1) / step = k)%Z).
    { rewrite Hk. replace (k * step + step - 1)%Z with (step - 1 + k * step)%Z by ring.
      rewrite Z.div_add by lia. rewrite Z.div_small by lia. lia. }
    rewrite Hdiv. rewrite Hk. nia.
Qed.

Lemma rollout_fuel_is_sum_of_costs_witness :
  exists lv,
    plotTrajectory mdp737 twoStepPolicy 2 twoStepStart = Some (Ok (Some lv))
    /\ fuelUsed (lv_traces lv)
       = pysum_float
           (map (step_cost mdp737 twoStepPolicy)
                (calls mdp737 twoStepPolicy 2 (loop_entry twoStepPolicy twoStepStart))).
Proof.
  destruct two_step_rollout as (lv & Hp & _).
  exists lv. split; [exact Hp |].
  destruct (rollout_fuel_is_sum_of_costs mdp737 twoStepPolicy 2 twoStepStart lv Hp)
    as (s0 & Hi & Hf & _).
  assert (Hs : initialState twoStepPolicy 2 twoStepStart = Some (Some twoStepStart))
    by (vm_compute; reflexivity).
  rewrite Hs in Hi. injection Hi as <-. exact Hf.
Defined.

Lemma rollout_traces_well_paired_witness :
  exists lv,
    plotTrajectory mdp737 twoStepPolicy 2 twoStepStart = Some (Ok (Some lv))
    /\ well_paired (lv_traces lv).
Proof.
  destruct two_step_rollout as (lv & Hp & _).
  exists lv. split; [exact Hp |].
  apply (rollout_traces_well_paired mdp737 twoStepPolicy 2 twoStepStart lv Hp).
Defined.

Lemma rollout_lands_witness :
  exists lv,
    plotTrajectory mdp737 twoStepPolicy 2 twoStepStart = Some (Ok (Some lv))
    /\ length (velDist (lv_traces lv)) = 3%nat.
Proof.
  destruct two_step_rollout as (lv & Hp & _).
  exists lv. split; [exact Hp |].
  assert (HdD : (0 < dD mdp737)%Z) by (simpl; lia).
  destruct (rollout_lands mdp737 twoStepPolicy 2 twoStepStart lv HdD Hp)
    as (s0 & Hi & _ & Hl & _).
  assert (Hs : initialState twoStepPolicy 2 twoStepStart = Some (Some twoStepStart))
    by (vm_compute; reflexivity).
  rewrite Hs in Hi. injection Hi as <-. exact Hl.
Defined.

(** ** More on the neighbourhood search *)

Section SearchShape.
Variable pi : gmap State action.

Lemma search_S (fuel : nat) (old : State) (i : Z) :
  search pi (S fuel) old i
  = match searchStep pi old (i + 1) with
    | inl r => Some r
    | inr _ => search pi fuel old (i + 1)
    end.
Proof. reflexivity. Qed.

(** What a pass of the search can leave the loop with. *)
Lemma searchStep_Some (a v c d i : Z) (s' : State) :
  searchStep pi (a, v, c, d) i = inl (Some s') ->
  is_Some (pi !! s')
  /\ (s' = ((a + i)%Z, v, c, d) \/ s' = ((a - i)%Z, v, c, d)
      \/ s' = (a, (v + i)%Z, c, d)
      \/ (s' = (a, (v - i)%Z, c, d) /\ i <> Z.max a v)
      \/ s' = (a, v, c, d)).
Proof.
  unfold searchStep.
  destruct (decide (is_Some (pi !! ((a + i)%Z, v, c, d)))) as [H1 | H1].
  { intros [= <-]. split; [exact H1 | tauto]. }
  destruct (decide (is_Some (pi !! ((a - i)%Z, v, c, d)))) as [H2 | H2].
  { intros [= <-]. split; [exact H2 | tauto]. }
  destruct (decide (is_Some (pi !! (a, (v + i)%Z, c, d)))) as [H3 | H3].
  { intros [= <-]. split; [exact H3 | tauto]. }
  destruct (Z.eqb_spec i (Z.max a v)) as [E | N]; [intros H; discriminate H |].
  destruct (decide (is_Some (pi !! (a, (v - i)%Z, c, d)))) as [H4 | H4].
  - rewrite decide_True by exact H4. intros [= <-]. split; [exact H4 | tauto].
  - cbv iota. destruct (decide _) as [H5 | H5]; intros H; [| discriminate H].
    injection H as <-. split; [exact H5 | tauto].
Qed.

Lemma searchStep_continues (old : State) (i : Z) :
  searchStep pi old i = inr tt ->
  i <> Z.max (s_alt old) (s_speed old).
Proof.
  destruct old as [[[a v] c] d]. unfold searchStep, s_alt, s_speed. simpl.
  repeat (destruct (decide _); [intros H; discriminate H |]).
  destruct (Z.eqb_spec i (Z.max a v)) as [E | N]; [intros H; discriminate H |].
  intros _. exact N.
Qed.

Lemma search_Some (fuel : nat) (a v c d i0 : Z) (s' : State) :
  search pi fuel (a, v, c, d) i0 = Some (Some s') ->
  exists i,
    (i0 < i <= i0 + Z.of_nat fuel)%Z
    /\ (i0 < Z.max a v -> i <= Z.max a v)%Z
    /\ is_Some (pi !! s')
    /\ (s' = ((a + i)%Z, v, c, d) \/ s' = ((a - i)%Z, v, c, d)
        \/ s' = (a, (v + i)%Z, c, d)
        \/ (s' = (a, (v - i)%Z, c, d) /\ i <> Z.max a v)
        \/ s' = (a, v, c, d)).
Proof.
  revert i0. induction fuel as [| fuel IH]; intros i0 H; [discriminate H |].
  rewrite search_S in H.
  destruct (searchStep pi (a, v, c, d) (i0 + 1)) as [r | []] eqn:Es.
  - cbv iota in H. injection H as ->. apply searchStep_Some in Es as [Hin Hs].
    exists (i0 + 1)%Z. split; [lia |]. split; [lia |]. split; assumption.
  - cbv iota in H.
    apply searchStep_continues in Es. unfold s_alt, s_speed in Es. simpl in Es.
    destruct (IH (i0 + 1)%Z H) as (i & Hi & Hm & Hrest).
    exists i. split; [lia |]. split; [lia | exact Hrest].
Qed.
End SearchShape.

(** X16: a start state the rollout resolves to has a policy entry, the
    configuration and the distance of the requested state, and differs from
    it, if at all, in the altitude alone or in the speed alone, by a whole
    number of at least 1. *)
Theorem resolved_start_is_near (pi : gmap State action) (fuel : nat)
    (a v c d : Z) (s' : State) :
  initialState pi fuel (a, v, c, d) = Some (Some s') ->
  is_Some (pi !! s')
  /\ s_config s' = c /\ s_dist s' = d
  /\ (s' = (a, v, c, d)
      \/ exists i,
           (1 <= i)%Z
           /\ ((s_speed s' = v /\ (s_alt s' = a + i \/ s_alt s' = a - i)%Z)
               \/ (s_alt s' = a /\ (s_speed s' = v + i \/ s_speed s' = v - i)%Z))).
Proof.
  unfold initialState.
  destruct (decide _) as [Hin | Hout].
  - intros [= <-]. repeat split; try assumption. left. reflexivity.
  - intros H. apply search_Some in H as (i & Hi & Hm & Hin & Hs).
    split; [exact Hin |].
    destruct Hs as [-> | [-> | [-> | [[-> _] | ->]]]];
      unfold s_config, s_dist, s_alt, s_speed; simpl;
      (split; [reflexivity |]); (split; [reflexivity |]);
      try (left; reflexivity);
      right; exists i; (split; [lia |]); simpl; auto.
Qed.

Lemma resolved_start_is_near_witness :
  is_Some (lonePolicy !! (1000, 70, 0, 0)%Z)
  /\ s_config (1000, 70, 0, 0)%Z = 0%Z.
Proof.
  destruct (resolved_start_is_near lonePolicy 1 1001 70 0 0 (1000, 70, 0, 0)%Z)
    as (Hin & Hc & _).
  - vm_compute. reflexivity.
  - split; [exact Hin | exact Hc].
Defined.

Lemma search_gives_up (pi : gmap State action) (a v c d : Z) :
  (forall k, is_Some (pi !! k) -> k = (a, (v - Z.max a v)%Z, c, d)) ->
  (1 <= Z.max a v)%Z ->
  forall (n : nat) (i0 : Z) (fuel : nat),
    (0 <= i0)%Z ->
    (i0 + Z.of_nat (S n))%Z = Z.max a v ->
    (S n <= fuel)%nat ->
    search pi fuel (a, v, c, d) i0 = Some None.
Proof.
  intros Honly HM.
  assert (Hmiss : forall k, k <> (a, (v - Z.max a v)%Z, c, d) ->
                            ~ is_Some (pi !! k)).
  { intros k Hk Hin. apply Hk. apply Honly. exact Hin. }
  assert (Hstep : forall i, (1 <= i)%Z ->
            searchStep pi (a, v, c, d) i
            = if (i =? Z.max a v)%Z then inl None else inr tt).
  { intros i Hi. unfold searchStep.
    destruct (Z.eqb_spec i (Z.max a v)) as [E | N];
      repeat case_decide; try reflexivity; exfalso;
      repeat match goal with
             | H : is_Some (pi !! _) |- _ => apply Honly in H; injection H as ?
             end; lia. }
  induction n as [| n IH]; intros i0 fuel Hi0 Hsum Hf;
    (destruct fuel as [| fuel]; [lia |]); rewrite search_S;
    rewrite Hstep by lia.
  - destruct (Z.eqb_spec (i0 + 1) (Z.max a v)) as [_ | N]; [reflexivity | lia].
  - destruct (Z.eqb_spec (i0 + 1) (Z.max a v)) as [E | _]; [lia |].
    apply IH; lia.
Qed.

(** X17: the entry the last speed probe finds is lost.  When the larger of
    altitude and speed, [M], is at least 1, the state [(a, v - M, c, d)] is
    never the resolved start, and if it is the only state of the policy the
    search ends in the [return None] although the probe found it. *)
Theorem last_speed_probe_is_lost (pi : gmap State action) (fuel : nat)
    (a v c d : Z) :
  (1 <= Z.max a v)%Z ->
  initialState pi fuel (a, v, c, d)
  <> Some (Some (a, (v - Z.max a v)%Z, c, d))
  /\ ((forall k, is_Some (pi !! k) -> k = (a, (v - Z.max a v)%Z, c, d)) ->
      (Z.to_nat (Z.max a v) <= fuel)%nat ->
      initialState pi fuel (a, v, c, d) = Some None).
Proof.
  intros HM. split.
  - unfold initialState. destruct (decide _) as [Hin | Hout].
    + intros [= E]. lia.
    + intros H. apply search_Some in H as (i & Hi & _ & _ & Hs).
      destruct Hs as [E | [E | [E | [[E Hne] | E]]]]; injection E as ?; lia.
  - intros Honly Hf. unfold initialState.
    rewrite decide_False.
    + destruct (Z.to_nat (Z.max a v)) as [| n] eqn:En; [lia |].
      apply (search_gives_up pi a v c d Honly HM n 0 fuel); lia.
    + intros Hin. apply Honly in Hin. injection Hin as E. lia.
Qed.

Lemma last_speed_probe_is_lost_witness :
  initialState {[ (5, 0, 0, 0)%Z := level ]} 5 (5, 5, 0, 0)%Z = Some None.
Proof.
  destruct (last_speed_probe_is_lost {[ (5, 0, 0, 0)%Z := level ]} 5 5 5 0 0)
    as [_ H]; [lia |].
  apply H; [| simpl; lia].
  intros k [x Hk]. apply lookup_singleton_Some in Hk as [<- _]. reflexivity.
Defined.

(** ** Rollouts at the edges *)

(** X18: a rollout asked for a state of the policy with no distance left
    takes no step: it reports that state with zero fuel and one velocity
    sample, for any fuel of the loop; if the density at the state's altitude
    is zero it ends in [ZeroDivisionError] instead. *)
Theorem rollout_without_distance (mdpInstance : ApproachMDP)
    (pi : gmap State action) (fuel : nat) (state : State) :
  is_Some (pi !! state) ->
  (s_dist state <= 0)%Z ->
  calls mdpInstance pi fuel (loop_entry pi state) = []
  /\ (env_getRho (env mdpInstance) (IZR (s_alt state)) <> 0 ->
      exists lv,
        plotTrajectory mdpInstance pi fuel state = Some (Ok (Some lv))
        /\ lv_state lv = state
        /\ fuelUsed (lv_traces lv) = 0
        /\ EAS (lv_traces lv) = [s_speed state]
        /\ velDist (lv_traces lv) = [km state])
  /\ (env_getRho (env mdpInstance) (IZR (s_alt state)) = 0 ->
      plotTrajectory mdpInstance pi fuel state
      = Some (Raise ZeroDivisionError)).
Proof.
  intros Hin Hd.
  assert (Hloop : loop mdpInstance pi fuel (loop_entry pi state)
                  = Some (Ok (loop_entry pi state)))
    by (apply loop_stops; exact Hd).
  assert (Hinit : initialState pi fuel state = Some (Some state)).
  { unfold initialState. rewrite decide_True by exact Hin. reflexivity. }
  split; [| split].
  - destruct fuel; simpl;
      destruct (Z.ltb_spec 0 (s_dist state)); try lia; reflexivity.
  - intros Hrho. unfold plotTrajectory. rewrite Hinit.
    fold (loop_entry pi state). rewrite Hloop.
    unfold lastState. rewrite recordedTAS_ok by exact Hrho. simpl bind.
    eexists. split; [reflexivity |].
    simpl. destruct (pi !! state) as [[] |]; repeat split; reflexivity.
  - intros Hrho. unfold plotTrajectory. rewrite Hinit.
    fold (loop_entry pi state). rewrite Hloop.
    unfold lastState, recordedTAS. simpl lv_state.
    rewrite (pydiv_raises _ _ Hrho). reflexivity.
Qed.

Lemma rollout_without_distance_witness :
  exists lv,
    plotTrajectory mdp737 lonePolicy 0 (1000, 70, 0, 0)%Z = Some (Ok (Some lv))
    /\ fuelUsed (lv_traces lv) = 0.
Proof.
  destruct (rollout_without_distance mdp737 lonePolicy 0 (1000, 70, 0, 0)%Z)
    as (_ & H & _).
  - eexists. vm_compute. reflexivity.
  - unfold s_dist. simpl. lia.
  - destruct H as (lv & Hp & _ & Hf & _).
    + pose proof (ISA_getRho_pos (IZR (s_alt (1000, 70, 0, 0)%Z))) as Hpos.
      change (ISA.getRho (IZR (s_alt (1000, 70, 0, 0)%Z)) <> 0). lra.
    + exists lv. split; [exact Hp | exact Hf].
Defined.

(** X19: a state without policy entry met during the rollout is flown
    level: the pass moves on one step distance with altitude, speed and
    configuration unchanged, records the state in the [dist]/[alt] trace and
    charges the cost of [level]. *)
Theorem missing_entry_flies_level (mdpInstance : ApproachMDP)
    (pi : gmap State action) (lv lv' : loopvars) :
  pi !! lv_state lv = None ->
  (0 < s_dist (lv_state lv))%Z ->
  body mdpInstance pi lv = Ok lv' ->
  lv_state lv'
  = (s_alt (lv_state lv), s_speed (lv_state lv), s_config (lv_state lv),
     (s_dist (lv_state lv) - dD mdpInstance)%Z)
  /\ lv_action lv' = None
  /\ (exists cost,
        getCost mdpInstance (lv_state lv) (Some level) = Ok cost
        /\ fuelUsed (lv_traces lv') = fuelUsed (lv_traces lv) + cost)
  /\ (exists moreD moreA,
        dist (lv_traces lv') = dist (lv_traces lv) ++ km (lv_state lv) :: moreD
        /\ alt (lv_traces lv')
           = alt (lv_traces lv) ++ s_alt (lv_state lv) :: moreA).
Proof.
  intros Hmiss Hd H.
  destruct (body_state mdpInstance pi lv lv' Hd H) as [Hs Ha].
  pose proof (body_fuel mdpInstance pi lv lv' Hd H) as Hf.
  destruct (body_Ok mdpInstance pi lv lv' Hd H) as (l & o & _ & Hfl & _).
  destruct Hfl as (cost & Hc & _).
  destruct (body_buckets mdpInstance pi lv lv' ConstantSpeed H) as [HD HA].
  rewrite Hmiss in Hs, Ha, Hc, HD, HA.
  unfold step_cost in Hf. rewrite Hmiss, Hc in Hf.
  split; [| split; [exact Ha | split]].
  - rewrite Hs. destruct (lv_state lv) as [[[a v] c] d]. reflexivity.
  - exists cost. split; [exact Hc | exact Hf].
  - unfold pushes in HD, HA. simpl in HD, HA.
    eexists. eexists. split; [exact HD | exact HA].
Qed.

Lemma missing_entry_flies_level_witness :
  exists lv',
    body mdp737 lonePolicy
      {| lv_state := initState; lv_action := None; lv_traces := traces_init |}
    = Ok lv'
    /\ lv_state lv' = (11000, 105, 0, 249000)%Z.
Proof.
  set (lv := {| lv_state := initState; lv_action := None;
                lv_traces := traces_init |}).
  destruct (mdp737_body_returns lonePolicy lv) as [lv' Hb];
    [unfold lv, initState; state_arith ..|].
  exists lv'. split; [exact Hb |].
  destruct (missing_entry_flies_level mdp737 lonePolicy lv lv') as [Hs _].
  - vm_compute. reflexivity.
  - unfold lv, initState. state_arith.
  - exact Hb.
  - exact Hs.
Defined.

(** ** The standard atmosphere *)

(** Scalar branch of [ISA.getP]. *)
Definition ISA_getP_below (alt : R) : R :=
  ISA.p_0 * Rpower (ISA.T_0 / (ISA.T_0 + ISA.L_b * alt))
                   (ISA.g * ISA.M_g / ISA.R_ / ISA.L_b).

Definition ISA_getP (alt : R) : R :=
  if Rlt_dec ISA.h_t alt then
    ISA_getP_below ISA.h_t
    * exp (- ISA.g * ISA.M_g * (alt - ISA.h_t) / ISA.R_ / ISA.getT alt)
  else ISA_getP_below alt.

Lemma Rpower_decreasing_base (x y e : R) :
  e < 0 -> 0 < x -> x < y -> Rpower y e < Rpower x e.
Proof.
  intros He Hx Hxy. unfold Rpower. apply exp_increasing.
  pose proof (ln_increasing x y Hx Hxy). nra.
Qed.

Lemma ISA_decay_rate_pos (alt : R) :
  ISA.h_t < alt -> 0 < ISA.g * ISA.M_g / ISA.R_ / ISA.getT alt.
Proof.
  intros H. unfold ISA.getT. destruct (Rlt_dec ISA.h_t alt) as [_ | N]; [| lra].
  unfold ISA.g, ISA.M_g, ISA.R_, ISA.T_0, ISA.L_b, ISA.h_t.
  apply Rdiv_lt_0_compat; [| lra]. apply Rdiv_lt_0_compat; lra.
Qed.

Lemma ISA_getT_above (alt : R) :
  ISA.h_t < alt -> ISA.getT alt = ISA.T_0 + ISA.L_b * ISA.h_t.
Proof.
  intros H. unfold ISA.getT. destruct (Rlt_dec ISA.h_t alt); [reflexivity | lra].
Qed.

Lemma ISA_decay_decreasing (a b : R) :
  ISA.h_t < a -> a < b ->
  exp (- ISA.g * ISA.M_g * (b - ISA.h_t) / ISA.R_ / ISA.getT b)
  < exp (- ISA.g * ISA.M_g * (a - ISA.h_t) / ISA.R_ / ISA.getT a).
Proof.
  intros Ha Hab. apply exp_increasing.
  pose proof (ISA_decay_rate_pos a Ha) as Hk.
  rewrite (ISA_getT_above b) by lra.
  rewrite (ISA_getT_above a) in * by lra.
  set (T := ISA.T_0 + ISA.L_b * ISA.h_t) in *.
  replace (- ISA.g * ISA.M_g * (b - ISA.h_t) / ISA.R_ / T)
    with (- (ISA.g * ISA.M_g / ISA.R_ / T) * (b - ISA.h_t))
    by (unfold Rdiv; ring).
  replace (- ISA.g * ISA.M_g * (a - ISA.h_t) / ISA.R_ / T)
    with (- (ISA.g * ISA.M_g / ISA.R_ / T) * (a - ISA.h_t))
    by (unfold Rdiv; ring).
  nra.
Qed.

Lemma ISA_decay_below_one (b : R) :
  ISA.h_t < b ->
  exp (- ISA.g * ISA.M_g * (b - ISA.h_t) / ISA.R_ / ISA.getT b) < 1.
Proof.
  intros Hb. apply Rlt_le_trans with (exp 0); [| rewrite exp_0; lra].
  apply exp_increasing.
  pose proof (ISA_decay_rate_pos b Hb) as Hk.
  replace (- ISA.g * ISA.M_g * (b - ISA.h_t) / ISA.R_ / ISA.getT b)
    with (- (ISA.g * ISA.M_g / ISA.R_ / ISA.getT b) * (b - ISA.h_t))
    by (unfold Rdiv; ring).
  nra.
Qed.

Lemma ISA_getRho_below_decreasing (a b : R) :
  -44000 <= a -> a < b -> ISA.getRho_below b < ISA.getRho_below a.
Proof.
  intros Ha Hab. unfold ISA.getRho_below.
  apply Rmult_lt_compat_l; [unfold ISA.rho_0; lra |].
  apply Rpower_decreasing_base.
  - apply ISA_exponent_negative.
  - unfold ISA.L_b, ISA.T_0. lra.
  - unfold ISA.L_b, ISA.T_0. lra.
Qed.

Lemma ISA_getRho_decreasing (a b : R) :
  -44000 <= a -> a < b -> ISA.getRho b < ISA.getRho a.
Proof.
  intros Ha Hab. unfold ISA.getRho.
  destruct (Rlt_dec ISA.h_t b) as [Hb | Hb];
    destruct (Rlt_dec ISA.h_t a) as [Ha' | Ha'].
  - apply Rmult_lt_compat_l; [apply ISA_getRho_below_pos |].
    apply ISA_decay_decreasing; assumption.
  - apply Rlt_le_trans with (ISA.getRho_below ISA.h_t).
    + pose proof (ISA_decay_below_one b Hb) as H1.
      pose proof (ISA_getRho_below_pos ISA.h_t) as H2. nra.
    + destruct (Req_dec_T a ISA.h_t) as [-> | Hne]; [lra |].
      left. apply ISA_getRho_below_decreasing; lra.
  - lra.
  - apply ISA_getRho_below_decreasing; assumption.
Qed.

(** X20: in the ISA model the density is positive and strictly decreasing
    in the altitude, from 44 km below sea level upwards and across the
    tropopause, where the two branches meet. *)
Theorem ISA_density_decreases (a b : R) :
  -44000 <= a -> a < b ->
  0 < ISA.getRho b < ISA.getRho a
  /\ ISA.getRho_below ISA.h_t
     * exp (- ISA.g * ISA.M_g * (ISA.h_t - ISA.h_t) / ISA.R_
              / ISA.getT ISA.h_t)
     = ISA.getRho ISA.h_t.
Proof.
  intros Ha Hab. split; [split |].
  - apply ISA_getRho_pos.
  - apply ISA_getRho_decreasing; assumption.
  - unfold ISA.getRho. destruct (Rlt_dec ISA.h_t ISA.h_t) as [H | _]; [lra |].
    replace (- ISA.g * ISA.M_g * (ISA.h_t - ISA.h_t) / ISA.R_
             / ISA.getT ISA.h_t) with 0.
    + rewrite exp_0. ring.
    + unfold Rdiv. ring.
Qed.

Lemma ISA_density_decreases_witness : ISA.getRho 11000 < ISA.getRho 0.
Proof.
  apply (ISA_density_decreases 0 11000); lra.
Defined.

Lemma ISA_getP_below_pos (a : R) : 0 < ISA_getP_below a.
Proof.
  unfold ISA_getP_below. apply Rmult_lt_0_compat.
  - unfold ISA.p_0. lra.
  - unfold Rpower. apply exp_pos.
Qed.

Lemma ISA_pressure_exponent_negative : ISA.g * ISA.M_g / ISA.R_ / ISA.L_b < 0.
Proof. pose proof ISA_exponent_negative. lra. Qed.

Lemma ISA_getP_below_decreasing (a b : R) :
  a < b -> b <= ISA.h_t -> ISA_getP_below b < ISA_getP_below a.
Proof.
  intros Hab Hb. unfold ISA_getP_below.
  apply Rmult_lt_compat_l; [unfold ISA.p_0; lra |].
  assert (Ta : 0 < ISA.T_0 + ISA.L_b * a)
    by (unfold ISA.T_0, ISA.L_b, ISA.h_t in *; lra).
  assert (Tb : 0 < ISA.T_0 + ISA.L_b * b)
    by (unfold ISA.T_0, ISA.L_b, ISA.h_t in *; lra).
  assert (Tba : ISA.T_0 + ISA.L_b * b < ISA.T_0 + ISA.L_b * a)
    by (unfold ISA.L_b; lra).
  assert (T0 : 0 < ISA.T_0) by (unfold ISA.T_0; lra).
  apply Rpower_decreasing_base.
  - apply ISA_pressure_exponent_negative.
  - apply Rdiv_lt_0_compat; assumption.
  - unfold Rdiv. apply Rmult_lt_compat_l; [exact T0 |].
    apply Rinv_lt_contravar; [apply Rmult_lt_0_compat; assumption | exact Tba].
Qed.

(** X21: in the ISA model the pressure is positive and strictly decreasing
    in the altitude, below, above and across the tropopause, where the two
    branches meet; at sea level it is [p_0]. *)
Theorem ISA_pressure_decreases (a b : R) :
  a < b ->
  0 < ISA_getP b < ISA_getP a
  /\ ISA_getP 0 = ISA.p_0
  /\ ISA_getP_below ISA.h_t
     * exp (- ISA.g * ISA.M_g * (ISA.h_t - ISA.h_t) / ISA.R_
              / ISA.getT ISA.h_t)
     = ISA_getP ISA.h_t.
Proof.
  intros Hab. split; [split | split].
  - unfold ISA_getP. destruct (Rlt_dec ISA.h_t b).
    + apply Rmult_lt_0_compat; [apply ISA_getP_below_pos | apply exp_pos].
    + apply ISA_getP_below_pos.
  - unfold ISA_getP.
    destruct (Rlt_dec ISA.h_t b) as [Hb | Hb];
      destruct (Rlt_dec ISA.h_t a) as [Ha' | Ha'].
    + apply Rmult_lt_compat_l; [apply ISA_getP_below_pos |].
      apply ISA_decay_decreasing; assumption.
    + apply Rlt_le_trans with (ISA_getP_below ISA.h_t).
      * pose proof (ISA_decay_below_one b Hb) as H1.
        pose proof (ISA_getP_below_pos ISA.h_t) as H2. nra.
      * destruct (Req_dec_T a ISA.h_t) as [-> | Hne]; [lra |].
        left. apply ISA_getP_below_decreasing; lra.
    + lra.
    + apply ISA_getP_below_decreasing; lra.
  - unfold ISA_getP. destruct (Rlt_dec ISA.h_t 0) as [H | _];
      [unfold ISA.h_t in H; lra |].
    unfold ISA_getP_below.
    replace (ISA.T_0 / (ISA.T_0 + ISA.L_b * 0)) with 1
      by (unfold ISA.T_0; field; lra).
    unfold Rpower. rewrite ln_1, Rmult_0_r, exp_0. ring.
  - unfold ISA_getP. destruct (Rlt_dec ISA.h_t ISA.h_t) as [H | _]; [lra |].
    replace (- ISA.g * ISA.M_g * (ISA.h_t - ISA.h_t) / ISA.R_
             / ISA.getT ISA.h_t) with 0.
    + rewrite exp_0. ring.
    + unfold Rdiv. ring.
Qed.

Lemma ISA_pressure_decreases_witness : ISA_getP 11000 < ISA_getP 0.
Proof.
  apply (ISA_pressure_decreases 0 11000); lra.
Defined.

(** X22: under the ISA atmosphere the true airspeed of the cost model is at
    least the equivalent airspeed of the state, at every altitude from sea
    level up, and equal to it at sea level. *)
Theorem TAS_at_least_EAS (self : ApproachMDP) (state : State) :
  env self = ISA.env ->
  (0 <= s_alt state)%Z ->
  (0 <= s_speed state)%Z ->
  IZR (s_speed state) <= TAS_of self state
  /\ (s_alt state = 0%Z -> TAS_of self state = IZR (s_speed state)).
Proof.
  intros Henv Ha Hv. unfold TAS_of. rewrite Henv. simpl env_getRho.
  assert (Hv' : 0 <= IZR (s_speed state)) by (apply IZR_le; exact Hv).
  assert (Ha' : 0 <= IZR (s_alt state)) by (apply IZR_le; exact Ha).
  pose proof (ISA_getRho_pos (IZR (s_alt state))) as Hpos.
  assert (Hle : ISA.getRho (IZR (s_alt state)) <= ISA.getRho 0).
  { destruct (Req_dec_T (IZR (s_alt state)) 0) as [-> | Hne]; [lra |].
    left. apply ISA_getRho_decreasing; lra. }
  split.
  - assert (H1 : 1 <= sqrt (ISA.getRho 0 / ISA.getRho (IZR (s_alt state)))).
    { rewrite <- sqrt_1 at 1. apply sqrt_le_1_alt.
      apply Rmult_le_reg_r with (ISA.getRho (IZR (s_alt state))); [exact Hpos |].
      unfold Rdiv. rewrite Rmult_assoc, Rinv_l by lra. lra. }
    nra.
  - intros H0. rewrite H0.
    replace (ISA.getRho 0 / ISA.getRho 0) with 1
      by (pose proof (ISA_getRho_pos 0); field; lra).
    rewrite sqrt_1. ring.
Qed.

Lemma TAS_at_least_EAS_witness : 105 <= TAS_of mdp737 initState.
Proof.
  apply (TAS_at_least_EAS mdp737 initState).
  - reflexivity.
  - unfold initState, s_alt. simpl. lia.
  - unfold initState, s_speed. simpl. lia.
Defined.

(** ** The reference profiles of [csv2dict.py]

    The lists [csvImport.plotVerticalProfiles] and
    [csvImport.plotVelocityProfiles] hand to [plt.plot] for one flight of
    [acDict].  A Python [IndexError] is [None]. *)

Module csvImport.

(** [l[-1]] *)
Definition last_item (l : list R) : option R := last l.

(** The flight's contribution to [plotVerticalProfiles]: nothing
    ([Some None]) unless its last altitude is below [minAlt], else the
    altitudes relative to the last one. *)
Definition verticalProfile (alts : list R) (minAlt : R)
    : option (option (list R)) :=
  match last_item alts with
  | None => None
  | Some z =>
      Some (if Rlt_dec z minAlt
            then Some (map (fun a => a - z) alts)
            else None)
  end.

(** The pairs [(i, vel)] of [enumerate(velocity)] from index [i] on that
    pass [vel < velocity[i-1] + 1], [prev] being [velocity[i-1]]. *)
Fixpoint kept_after (prev : R) (i : nat) (rest : list R) : list (nat * R) :=
  match rest with
  | [] => []
  | vel :: rest' =>
      (if Rlt_dec vel (prev + 1) then [(i, vel)] else [])
      ++ kept_after vel (S i) rest'
  end.

(** The pairs that pass [i == 0 or vel < velocity[i-1] + 1]. *)
Definition kept (velocity : list R) : list (nat * R) :=
  match velocity with
  | [] => []
  | v0 :: rest => (O, v0) :: kept_after v0 1 rest
  end.

(** [[distToEnd[i] for i, vel in ...]], failing on the first index
    [distToEnd] lacks. *)
Fixpoint distances_at (distToEnd : list R) (idx : list nat)
    : option (list R) :=
  match idx with
  | [] => Some []
  | i :: idx' =>
      match distToEnd !! i with
      | None => None
      | Some x =>
          match distances_at distToEnd idx' with
          | None => None
          | Some xs => Some (x :: xs)
          end
      end
  end.

(** The two lists of [plotVelocityProfiles] for a flight. *)
Definition velocityProfile (velocity distToEnd : list R)
    : option (list R * list R) :=
  match distances_at distToEnd (map fst (kept velocity)) with
  | None => None
  | Some xs => Some (xs, map snd (kept velocity))
  end.

End csvImport.

Section CsvFacts.
Import csvImport.

Lemma kept_after_bound (prev : R) (i : nat) (rest : list R) :
  Forall (fun p => (i <= fst p < i + length rest)%nat) (kept_after prev i rest).
Proof.
  revert prev i. induction rest as [| vel rest IH]; intros prev i; simpl.
  - constructor.
  - apply Forall_app. split.
    + destruct (Rlt_dec vel (prev + 1)); repeat constructor; simpl; lia.
    + eapply Forall_impl; [apply (IH vel (S i)) |].
      intros p Hp. simpl in Hp. lia.
Qed.

Lemma distances_at_total (distToEnd : list R) (idx : list nat) :
  Forall (fun i => (i < length distToEnd)%nat) idx ->
  exists xs, distances_at distToEnd idx = Some xs
             /\ length xs = length idx.
Proof.
  induction idx as [| i idx IH]; intros H; simpl.
  - exists []. split; reflexivity.
  - apply Forall_cons in H as [Hi H].
    destruct (lookup_lt_is_Some_2 distToEnd i Hi) as [x ->].
    destruct (IH H) as (xs & -> & Hl). exists (x :: xs).
    split; [reflexivity | simpl; lia].
Qed.

Lemma kept_after_all (prev : R) (i : nat) (rest : list R) :
  (forall j v w, (prev :: rest) !! j = Some v -> rest !! j = Some w ->
                 w < v + 1) ->
  map snd (kept_after prev i rest) = rest
  /\ map fst (kept_after prev i rest) = seq i (length rest).
Proof.
  revert prev i. induction rest as [| vel rest IH]; intros prev i H; simpl.
  - split; reflexivity.
  - destruct (Rlt_dec vel (prev + 1)) as [_ | N].
    + destruct (IH vel (S i)) as [H1 H2].
      * intros j v w Hv Hw. apply (H (S j) v w); assumption.
      * simpl. rewrite H1, H2. split; reflexivity.
    + exfalso. apply N. apply (H O prev vel); reflexivity.
Qed.

Lemma distances_at_seq (l : list R) :
  distances_at l (seq 0 (length l)) = Some l.
Proof.
  assert (H : forall pre l',
             distances_at (pre ++ l') (seq (length pre) (length l')) = Some l').
  { intros pre l'. revert pre. induction l' as [| x l' IH]; intros pre; simpl.
    - reflexivity.
    - rewrite lookup_app_r by lia. rewrite Nat.sub_diag. simpl.
      replace (pre ++ x :: l') with ((pre ++ [x]) ++ l')
        by (rewrite <- app_assoc; reflexivity).
      replace (S (length pre)) with (length (pre ++ [x]))
        by (rewrite length_app; simpl; lia).
      rewrite IH. reflexivity. }
  apply (H [] l).
Qed.
End CsvFacts.

(** X23: the velocity profile of a flight: when [distToEnd] is at least as
    long as [velocity] (in [acDict] they are equally long) the two plotted
    lists exist and are equally long, at most as long as [velocity], and a
    non-empty flight keeps its first sample; a flight whose speed never
    rises by 1 m/s or more from one sample to the next is plotted whole. *)
Theorem velocityProfile_pairs (velocity distToEnd : list R) :
  (length velocity <= length distToEnd)%nat ->
  (exists xs ys,
     csvImport.velocityProfile velocity distToEnd = Some (xs, ys)
     /\ length xs = length ys
     /\ (length ys <= length velocity)%nat
     /\ head ys = head velocity)
  /\ (length velocity = length distToEnd ->
      (forall j v w, velocity !! j = Some v -> velocity !! S j = Some w ->
                     w < v + 1) ->
      csvImport.velocityProfile velocity distToEnd
      = Some (distToEnd, velocity)).
Proof.
  intros Hlen. split.
  - unfold csvImport.velocityProfile.
    assert (Hb : Forall (fun p => (fst p < length velocity)%nat)
                        (csvImport.kept velocity)).
    { destruct velocity as [| v0 rest]; simpl; [constructor |].
      constructor; [simpl; lia |].
      eapply Forall_impl; [apply (kept_after_bound v0 1 rest) |].
      intros p Hp. simpl in Hp. lia. }
    destruct (distances_at_total distToEnd (map fst (csvImport.kept velocity)))
      as (xs & -> & Hl).
    { apply Forall_fmap. eapply Forall_impl; [exact Hb |].
      intros p Hp. unfold compose. simpl in *. lia. }
    exists xs, (map snd (csvImport.kept velocity)).
    split; [reflexivity |]. rewrite Hl, !length_map. split; [reflexivity |].
    split.
    + destruct velocity as [| v0 rest]; simpl; [lia |].
      pose proof (kept_after_bound v0 1 rest) as Hk.
      assert (Hnd : forall prev i l,
                 (length (csvImport.kept_after prev i l) <= length l)%nat).
      { intros prev i l. revert prev i.
        induction l as [| y l IH]; intros prev i; simpl; [lia |].
        rewrite length_app. specialize (IH y (S i)).
        destruct (Rlt_dec y (prev + 1)); simpl; lia. }
      specialize (Hnd v0 1%nat rest). lia.
    + destruct velocity; reflexivity.
  - intros Heq Hmono. unfold csvImport.velocityProfile.
    destruct velocity as [| v0 rest].
    + destruct distToEnd; [reflexivity | discriminate Heq].
    + simpl csvImport.kept.
      destruct (kept_after_all v0 1 rest) as [H1 H2].
      { intros j v w Hv Hw. apply (Hmono j v w); [exact Hv | exact Hw]. }
      simpl map. rewrite H1, H2.
      change (O :: seq 1 (length rest)) with (seq 0 (length (v0 :: rest))).
      rewrite Heq, distances_at_seq. reflexivity.
Qed.

Lemma velocityProfile_pairs_witness :
  exists xs ys,
    csvImport.velocityProfile [100; 90; 95; 80] [3; 2; 1; 0] = Some (xs, ys)
    /\ length xs = length ys.
Proof.
  destruct (velocityProfile_pairs [100; 90; 95; 80] [3; 2; 1; 0])
    as [(xs & ys & H & Hl & _) _]; [simpl; lia |].
  exists xs, ys. split; [exact H | exact Hl].
Defined.

(** The sample that rises by 5 m/s is dropped from both lists. *)
Example velocityProfile_drops_rise :
  csvImport.velocityProfile [100; 90; 95; 80] [3; 2; 1; 0]
  = Some ([3; 2; 0], [100; 90; 80]).
Proof.
  unfold csvImport.velocityProfile, csvImport.kept. simpl.
  destruct (Rlt_dec 90 (100 + 1)) as [_ | N]; [| lra].
  destruct (Rlt_dec 95 (90 + 1)) as [L | _]; [lra |].
  destruct (Rlt_dec 80 (95 + 1)) as [_ | N]; [| lra].
  reflexivity.
Qed.

Lemma last_map_shift (f : R -> R) (l : list R) :
  last (map f l) = option_map f (last l).
Proof.
  induction l as [| x l IH]; [reflexivity |].
  destruct l as [| y l]; [reflexivity |]. exact IH.
Qed.

(** X24: the vertical profile of a flight: a flight without samples raises
    the index error; a flight that ends at or above [minAlt] is not plotted;
    one that ends below is plotted with as many altitudes as it has samples,
    the last of them 0. *)
Theorem verticalProfile_ends_at_zero (alts : list R) (minAlt : R) :
  (alts = [] -> csvImport.verticalProfile alts minAlt = None)
  /\ (forall z, last alts = Some z -> minAlt <= z ->
                csvImport.verticalProfile alts minAlt = Some None)
  /\ (forall z, last alts = Some z -> z < minAlt ->
                exists ys,
                  csvImport.verticalProfile alts minAlt = Some (Some ys)
                  /\ length ys = length alts
                  /\ last ys = Some 0).
Proof.
  unfold csvImport.verticalProfile, csvImport.last_item.
  split; [| split].
  - intros ->. reflexivity.
  - intros z -> Hz. destruct (Rlt_dec z minAlt); [lra | reflexivity].
  - intros z Hl Hz. rewrite Hl.
    destruct (Rlt_dec z minAlt) as [_ | N]; [| lra].
    eexists. split; [reflexivity |]. split; [apply length_map |].
    rewrite last_map_shift, Hl. simpl. f_equal. ring.
Qed.

(** ** The key of a flight in [readcsvs] *)

From Stdlib Require Ascii.

Module flightKey.
Import Ascii.

(** A Python string, character by character. *)
Definition pystr : Type := list ascii.

Inductive key_result (A : Type) : Type :=
| Key (a : A)
| KeyIndexError          (* [file[-5]] on a string of fewer than 5 characters *)
| KeyValueError.         (* [int] of a character that is no digit *)
Arguments Key {A} a.
Arguments KeyIndexError {A}.
Arguments KeyValueError {A}.

(** A slice bound brought into [0 .. n], as Python does. *)
Definition clamp_index (n i : Z) : nat :=
  Z.to_nat (if (i <? 0)%Z then Z.max (i + n) 0 else Z.min i n).

(** [s[i:j]] *)
Definition pyslice (s : pystr) (i j : Z) : pystr :=
  let n := Z.of_nat (length s) in
  take (clamp_index n j - clamp_index n i) (drop (clamp_index n i) s).

(** [int(c)] for a one-character string. *)
Definition int_of_char (c : ascii) : option Z :=
  if Ascii.eqb c "0" then Some 0%Z
  else if Ascii.eqb c "1" then Some 1%Z
  else if Ascii.eqb c "2" then Some 2%Z
  else if Ascii.eqb c "3" then Some 3%Z
  else if Ascii.eqb c "4" then Some 4%Z
  else if Ascii.eqb c "5" then Some 5%Z
  else if Ascii.eqb c "6" then Some 6%Z
  else if Ascii.eqb c "7" then Some 7%Z
  else if Ascii.eqb c "8" then Some 8%Z
  else if Ascii.eqb c "9" then Some 9%Z
  else None.

(** [date = file[-17:-11]; ICAOid = file[-11:-5]; segment = int(file[-5])],
    the key [(date, ICAOid, segment)] of [acDict]. *)
Definition key_of_file (file : pystr) : key_result (pystr * pystr * Z) :=
  let date := pyslice file (-17) (-11) in
  let ICAOid := pyslice file (-11) (-5) in
  let n := Z.of_nat (length file) in
  if (n <? 5)%Z then KeyIndexError
  else
    match file !! Z.to_nat (n - 5) with
    | None => KeyIndexError
    | Some c =>
        match int_of_char c with
        | None => KeyValueError
        | Some segment => Key (date, ICAOid, segment)
        end
    end.

Definition dot_csv : pystr := ["."; "c"; "s"; "v"]%char.

End flightKey.

(** X25: the key of a flight is read back from the file name: for a path
    that ends in six characters of date, six of ICAO id, one digit and
    [.csv], the key is that date, that id and the value of the digit,
    whatever the directory; a path of fewer than five characters raises the
    index error. *)
Theorem key_of_file_reads_name (dir date icao : flightKey.pystr)
    (c : Ascii.ascii) (segment : Z) :
  length date = 6%nat ->
  length icao = 6%nat ->
  flightKey.int_of_char c = Some segment ->
  flightKey.key_of_file (dir ++ date ++ icao ++ c :: flightKey.dot_csv)
  = flightKey.Key (date, icao, segment)
  /\ forall short : flightKey.pystr,
       (length short < 5)%nat ->
       flightKey.key_of_file short = flightKey.KeyIndexError.
Proof.
  intros Hd Hi Hc. split.
  - unfold flightKey.key_of_file, flightKey.pyslice, flightKey.clamp_index.
    unfold flightKey.pystr in *.
    set (file := dir ++ date ++ icao ++ c :: flightKey.dot_csv).
    assert (Hlen : length file = (length dir + 17)%nat).
    { unfold file, flightKey.dot_csv. rewrite !length_app. simpl. lia. }
    rewrite Hlen.
    destruct (Z.ltb_spec (Z.of_nat (length dir + 17)) 5) as [L | _]; [lia |].
    replace (Z.to_nat (Z.of_nat (length dir + 17) - 5))
      with (length dir + 12)%nat by lia.
    change (-17 <? 0)%Z with true. change (-11 <? 0)%Z with true.
    change (-5 <? 0)%Z with true. cbv iota.
    replace (Z.to_nat (Z.max (-17 + Z.of_nat (length dir + 17)) 0))
      with (length dir) by lia.
    replace (Z.to_nat (Z.max (-11 + Z.of_nat (length dir + 17)) 0))
      with (length dir + 6)%nat by lia.
    replace (Z.to_nat (Z.max (-5 + Z.of_nat (length dir + 17)) 0))
      with (length dir + 12)%nat by lia.
    replace (length dir + 6 - length dir)%nat with (length date) by lia.
    replace (length dir + 12 - (length dir + 6))%nat with (length icao) by lia.
    assert (Hdate : take (length date) (drop (length dir) file) = date).
    { unfold file. rewrite drop_app_length. apply take_app_length. }
    assert (Hicao : take (length icao) (drop (length dir + 6) file) = icao).
    { unfold file. rewrite <- Hd, <- drop_drop, drop_app_length, drop_app_length.
      apply take_app_length. }
    assert (Hch : file !! (length dir + 12)%nat = Some c).
    { unfold file. rewrite lookup_app_r by lia.
      replace (length dir + 12 - length dir)%nat with (length date + 6)%nat by lia.
      rewrite lookup_app_r by lia.
      replace (length date + 6 - length date)%nat with (length icao) by lia.
      rewrite lookup_app_r by lia. rewrite Nat.sub_diag. reflexivity. }
    rewrite Hdate, Hicao, Hch, Hc. reflexivity.
  - intros short Hs. unfold flightKey.key_of_file.
    destruct (Z.ltb_spec (Z.of_nat (length short)) 5) as [_ | G]; [reflexivity | lia].
Qed.

Section KeyExample.
Import Ascii.

Lemma key_of_file_reads_name_witness :
  flightKey.key_of_file
    (["l"; "o"; "g"; "s"; "/"; "1"; "7"; "1"; "1"; "0"; "4";
      "a"; "0"; "b"; "1"; "c"; "2"; "3"; "."; "c"; "s"; "v"]%char)
  = flightKey.Key (["1"; "7"; "1"; "1"; "0"; "4"]%char,
                   ["a"; "0"; "b"; "1"; "c"; "2"]%char, 3%Z).
Proof.
  apply (key_of_file_reads_name
           ["l"; "o"; "g"; "s"; "/"]%char
           ["1"; "7"; "1"; "1"; "0"; "4"]%char
           ["a"; "0"; "b"; "1"; "c"; "2"]%char "3"%char 3%Z);
    reflexivity.
Defined.
End KeyExample.

(** ** Termination of the whole rollout *)



(** * Where the code departs from the claims *)

(** ** A change of action after a flap extension *)







(** ** The search at its last pass *)

Definition lostPolicy : gmap State action := {[ (5, 0, 0, 0)%Z := level ]}.

Lemma search_never_ends (fuel : nat) (i0 : Z) :
  (0 <= i0)%Z ->
  search (∅ : gmap State action) fuel (0, 0, 0, 0)%Z i0 = None.
Proof.
  revert i0. induction fuel as [| fuel IH]; intros i0 Hi; [reflexivity |].
  rewrite search_S.
  assert (Hstep : searchStep (∅ : gmap State action) (0, 0, 0, 0)%Z (i0 + 1)
                  = inr tt).
  { unfold searchStep.
    destruct (Z.eqb_spec (i0 + 1) (Z.max 0 0)) as [E | _]; [simpl in E; lia |].
    repeat case_decide; try reflexivity; exfalso;
      match goal with
      | H : is_Some (∅ !! _) |- _ =>
          rewrite lookup_empty in H; destruct H as [x H]; discriminate H
      end. }
  rewrite Hstep. apply IH. lia.
Qed.

(** C8, on the code: with the policy [{(5, 0, 0, 0)}] and the start state
    [(5, 5, 0, 0)] the first perturbed state with an entry is
    [(5, 0, 0, 0)], found by the speed [-i] probe at [i = 5]; that branch has
    no [break], the test [i == max(oldState[:2])] follows, and the rollout
    returns [None] for every sufficient fuel.  And from the start state
    [(0, 0, 0, 0)] with an empty policy the test is never met: the search
    runs out of every fuel, so no failure is reported. *)
Theorem neighbourhood_search_loses_last_hit :
  first_entry lostPolicy (candidates (5, 5, 0, 0)%Z 0 5)
  = Some (5, 0, 0, 0)%Z
  /\ is_Some (lostPolicy !! (5, 0, 0, 0)%Z)
  /\ (forall fuel, (5 <= fuel)%nat ->
        plotTrajectory mdp737 lostPolicy fuel (5, 5, 0, 0)%Z = Some (Ok None))
  /\ (forall fuel,
        plotTrajectory mdp737 ∅ fuel (0, 0, 0, 0)%Z = None).
Proof.
  split; [vm_compute; reflexivity |].
  split; [eexists; vm_compute; reflexivity |].
  split.
  - intros fuel Hf. unfold plotTrajectory, initialState.
    rewrite decide_False.
    + rewrite (search_gives_up lostPolicy 5 5 0 0) with (n := 4%nat);
        [reflexivity | | lia | lia | reflexivity | lia].
      intros k [x Hk]. unfold lostPolicy in Hk.
      apply lookup_singleton_Some in Hk as [<- _]. reflexivity.
    + intros [x Hx]. vm_compute in Hx. discriminate Hx.
  - intros fuel. unfold plotTrajectory, initialState.
    rewrite decide_False.
    + rewrite search_never_ends by lia. reflexivity.
    + rewrite lookup_empty. apply is_Some_None.
Qed.
